(** * gogcli: the Gmail forward composer and the label-modify command

    A shallow embedding of [internal/cmd/gmail_messages_modify.go]:
    the label merge of [GmailMessagesModifyCmd.Run] (lines 13-87), the
    message composition of [GmailMessagesForwardCmd.Run] with
    [addAttachmentToMultipart] and [encodeWeb64] (lines 208-365), the
    earlier revision of that command which the file also carries (lines
    103-187), and the pieces of the Go standard library they run on
    ([encoding/base64], [mime/multipart], [strings], [fmt]).

    Go strings and byte slices are byte sequences; both are [string] here
    (a list of 8-bit [ascii]).  Go's [uint] is [Z]: every value the encoder
    builds is below [2^24], so no wrap-around can occur. *)

From Stdlib Require Import ZArith Ascii String List Lia Bool.
From stdpp Require Import gmap strings list pretty sorting.

Local Open Scope Z_scope.
Local Open Scope string_scope.

(** ** encoding/base64 *)

Module Base64.

(** [const encodeStd], [const encodeURL] of the Go library. *)
Definition encodeStd : string :=
  "ABCDEFGHIJKLMNOPQRSTUVWXYZabcdefghijklmnopqrstuvwxyz0123456789+/".
Definition encodeURL : string :=
  "ABCDEFGHIJKLMNOPQRSTUVWXYZabcdefghijklmnopqrstuvwxyz0123456789-_".

(** [StdPadding]. *)
Definition padChar : ascii := "="%char.

Definition byteZ (a : ascii) : Z := Z.of_N (N_of_ascii a).
Definition Zbyte (z : Z) : ascii := ascii_of_N (Z.to_N z).

(** [enc.encode[i]]: the table is a 64-byte array. *)
Definition tab_get (tab : string) (i : Z) : ascii :=
  match String.get (Z.to_nat i) tab with
  | Some c => c
  | None => padChar
  end.

(** The four sextets of a 24-bit group, as [Encode] extracts them:
    [val>>18&0x3F], [val>>12&0x3F], [val>>6&0x3F], [val&0x3F]. *)
Definition sextet (val : Z) (k : Z) : Z := Z.land (Z.shiftr val k) 63.

(** [func (enc *Encoding) Encode(dst, src []byte)] with padding, the output
    returned instead of written to [dst]. *)
Fixpoint Encode (tab : string) (src : string) : string :=
  match src with
  | EmptyString => EmptyString
  | String a EmptyString =>
      let val := Z.shiftl (byteZ a) 16 in
      String (tab_get tab (sextet val 18))
        (String (tab_get tab (sextet val 12))
           (String padChar (String padChar EmptyString)))
  | String a (String b EmptyString) =>
      let val := Z.lor (Z.shiftl (byteZ a) 16) (Z.shiftl (byteZ b) 8) in
      String (tab_get tab (sextet val 18))
        (String (tab_get tab (sextet val 12))
           (String (tab_get tab (sextet val 6))
              (String padChar EmptyString)))
  | String a (String b (String c rest)) =>
      let val := Z.lor (Z.lor (Z.shiftl (byteZ a) 16) (Z.shiftl (byteZ b) 8))
                       (byteZ c) in
      String (tab_get tab (sextet val 18))
        (String (tab_get tab (sextet val 12))
           (String (tab_get tab (sextet val 6))
              (String (tab_get tab (sextet val 0)) (Encode tab rest))))
  end.

(** [base64.URLEncoding.EncodeToString] and [base64.StdEncoding] through
    [NewEncoder] / [Write] / [Close] on one buffer (no line breaks). *)
Definition URLEncodeToString (src : string) : string := Encode encodeURL src.
Definition StdEncodeToString (src : string) : string := Encode encodeStd src.

(** The reader's side, used to state what an encoded text carries: the
    index of a character in the table, and the decoding of padded text. *)
Fixpoint index_from (tab : string) (c : ascii) (i : Z) : option Z :=
  match tab with
  | EmptyString => None
  | String d tab' => if Ascii.eqb c d then Some i else index_from tab' c (i + 1)
  end.
Definition tab_index (tab : string) (c : ascii) : option Z := index_from tab c 0.

Definition is_pad (c : ascii) : bool := Ascii.eqb c padChar.

(** [decodeQuantum], one quantum after the other, on text without line
    breaks: four characters give three bytes, the last quantum may be padded
    ([xx==] one byte, [xxx=] two); any other character, a short quantum or
    text after the padding is a [CorruptInputError].  The encodings used
    here are not strict: the unused low bits of a padded quantum are not
    checked. *)
Fixpoint DecodeQuanta (tab : string) (s : string) : option string :=
  match s with
  | EmptyString => Some EmptyString
  | String c0 (String c1 (String c2 (String c3 rest))) =>
      match tab_index tab c0, tab_index tab c1 with
      | Some i0, Some i1 =>
          match rest with
          | EmptyString =>
              if is_pad c3 then
                if is_pad c2 then
                  Some (String (Zbyte ((i0 * 64 + i1) / 16)) EmptyString)
                else
                  match tab_index tab c2 with
                  | Some i2 =>
                      let v := (i0 * 64 + i1) * 64 + i2 in
                      Some (String (Zbyte (v / 1024))
                              (String (Zbyte ((v / 4) mod 256)) EmptyString))
                  | None => None
                  end
              else
                match tab_index tab c2, tab_index tab c3 with
                | Some i2, Some i3 =>
                    let v := ((i0 * 64 + i1) * 64 + i2) * 64 + i3 in
                    Some (String (Zbyte (v / 65536))
                            (String (Zbyte ((v / 256) mod 256))
                               (String (Zbyte (v mod 256)) EmptyString)))
                | _, _ => None
                end
          | String _ _ =>
              match tab_index tab c2, tab_index tab c3, DecodeQuanta tab rest with
              | Some i2, Some i3, Some tl =>
                  let v := ((i0 * 64 + i1) * 64 + i2) * 64 + i3 in
                  Some (String (Zbyte (v / 65536))
                          (String (Zbyte ((v / 256) mod 256))
                             (String (Zbyte (v mod 256)) tl)))
              | _, _, _ => None
              end
          end
      | _, _ => None
      end
  | _ => None
  end.

(** Line breaks are skipped wherever they stand: [decodeQuantum] goes on
    to the next character at a carriage return or a line feed, also inside
    and after the padding. *)
Definition is_newline (c : ascii) : bool :=
  Ascii.eqb c "013"%char || Ascii.eqb c "010"%char.

Fixpoint skipNewlines (s : string) : string :=
  match s with
  | EmptyString => EmptyString
  | String c s' => if is_newline c then skipNewlines s' else String c (skipNewlines s')
  end.

(** [func (enc *Encoding) DecodeString(s string) ([]byte, error)]. *)
Definition Decode (tab : string) (s : string) : option string :=
  DecodeQuanta tab (skipNewlines s).

Definition URLDecodeString (s : string) : option string := Decode encodeURL s.

(** Characters allowed in URL-safe text: letters, digits, [-], [_], [=]. *)
Definition url_safe_char (c : ascii) : bool :=
  match tab_index encodeURL c with
  | Some _ => true
  | None => is_pad c
  end.

Fixpoint string_forall (p : ascii -> bool) (s : string) : bool :=
  match s with
  | EmptyString => true
  | String c s' => p c && string_forall p s'
  end.

(** A table a reader can invert: 64 distinct characters, none the padding
    character; [checkTable] decides it by running through the indices. *)
Definition goodTable (tab : string) : Prop :=
  forall i, 0 <= i < 64 ->
    tab_index tab (tab_get tab i) = Some i /\ is_pad (tab_get tab i) = false.

Definition checkTable (tab : string) : bool :=
  forallb (fun n =>
             match tab_index tab (tab_get tab (Z.of_nat n)) with
             | Some j => Z.eqb j (Z.of_nat n) && negb (is_pad (tab_get tab (Z.of_nat n)))
             | None => false
             end) (seq 0 64).

End Base64.

(** ** Strings, [strings.TrimSpace], [fmt.Sprintf] *)

Definition CR : ascii := "013"%char.
Definition LF : ascii := "010"%char.
Definition DQUOTE : ascii := "034"%char.
Definition CRLF : string := String CR (String LF EmptyString).
Definition NL : string := String LF EmptyString.
Definition QUOTE : string := String DQUOTE EmptyString.

Definition bytes (l : list nat) : string :=
  fold_right (fun n s => String (ascii_of_nat n) s) EmptyString l.

(** The UTF-8 encodings of the code points for which [unicode.IsSpace]
    holds: TAB, LF, VT, FF, CR, SPACE, U+0085, U+00A0, U+1680,
    U+2000..U+200A, U+2028, U+2029, U+202F, U+205F, U+3000. *)
Definition spaceRunes : list string :=
  map bytes
    [ [9]; [10]; [11]; [12]; [13]; [32]; [194; 133]; [194; 160];
      [225; 154; 128];
      [226; 128; 128]; [226; 128; 129]; [226; 128; 130]; [226; 128; 131];
      [226; 128; 132]; [226; 128; 133]; [226; 128; 134]; [226; 128; 135];
      [226; 128; 136]; [226; 128; 137]; [226; 128; 138];
      [226; 128; 168]; [226; 128; 169]; [226; 128; 175];
      [226; 129; 159]; [227; 128; 128] ]%nat.

Fixpoint stripPrefix (p s : string) : option string :=
  match p, s with
  | EmptyString, _ => Some s
  | String a p', String b s' => if Ascii.eqb a b then stripPrefix p' s' else None
  | String _ _, EmptyString => None
  end.

Fixpoint stripAny (runes : list string) (s : string) : option string :=
  match runes with
  | [] => None
  | r :: runes' =>
      match stripPrefix r s with
      | Some s' => Some s'
      | None => stripAny runes' s
      end
  end.

(** Drop leading runes of [runes]; the fuel is the length of the text. *)
Fixpoint trimLeftGo (runes : list string) (fuel : nat) (s : string) : string :=
  match fuel with
  | O => s
  | S fuel' =>
      match stripAny runes s with
      | Some s' => trimLeftGo runes fuel' s'
      | None => s
      end
  end.

Definition TrimLeftSpace (s : string) : string :=
  trimLeftGo spaceRunes (String.length s) s.
Definition TrimRightSpace (s : string) : string :=
  String.rev (trimLeftGo (map String.rev spaceRunes) (String.length s) (String.rev s)).

(** [strings.TrimSpace]: [TrimRightFunc(TrimLeftFunc(s, unicode.IsSpace), unicode.IsSpace)]. *)
Definition TrimSpace (s : string) : string := TrimRightSpace (TrimLeftSpace s).

(** Errors: [usage(msg)], an error handed back by a collaborator, and
    [fmt.Errorf(context + ": %w", err)]. *)
Inductive error : Type :=
| usage (msg : string)
| failure (msg : string)
| Errorf_w (context : string) (err : error).

(** [err.Error()]. *)
Fixpoint Error (e : error) : string :=
  match e with
  | usage msg => msg
  | failure msg => msg
  | Errorf_w context err => context +:+ ": " +:+ Error err
  end.

Inductive result (A : Type) : Type :=
| Ok (a : A)
| Err (e : error).
Arguments Ok {A} a.
Arguments Err {A} e.

(** [fmt.Errorf("<context>: %w", err)] on the error branch of a call. *)
Definition wrapErr {A : Type} (context : string) (r : result A) : result A :=
  match r with
  | Ok a => Ok a
  | Err e => Err (Errorf_w context e)
  end.

(** Operands of [fmt.Sprintf], for the verbs this file uses: [%s] with a
    string, [%d] with an int, [%v] with an error. *)
Inductive operand : Type :=
| AStr (s : string)
| AInt (n : Z)
| AErr (e : error).

Definition render (a : operand) : string :=
  match a with
  | AStr s => s
  | AInt n => pretty n
  | AErr e => Error e
  end.

Fixpoint Sprintf (format : string) (args : list operand) : string :=
  match format with
  | EmptyString => EmptyString
  | String c rest =>
      if Ascii.eqb c "%" then
        match rest with
        | EmptyString => "%!(NOVERB)"
        | String v rest' =>
            match args with
            | a :: args' => render a +:+ Sprintf rest' args'
            | [] => "%!" +:+ String v "(MISSING)" +:+ Sprintf rest' []
            end
        end
      else String c (Sprintf rest args)
  end.

(** ** net/textproto and mime/multipart *)

Module Multipart.

(** [textproto.MIMEHeader] is [map[string][]string]. *)
Abbreviation MIMEHeader := (gmap string (list string)).

Definition is_lower (c : ascii) : bool :=
  let n := nat_of_ascii c in (Nat.leb 97 n && Nat.leb n 122)%nat.
Definition is_upper (c : ascii) : bool :=
  let n := nat_of_ascii c in (Nat.leb 65 n && Nat.leb n 90)%nat.
Definition is_digit (c : ascii) : bool :=
  let n := nat_of_ascii c in (Nat.leb 48 n && Nat.leb n 57)%nat.
Definition to_upper (c : ascii) : ascii :=
  if is_lower c then ascii_of_nat (nat_of_ascii c - 32) else c.
Definition to_lower (c : ascii) : ascii :=
  if is_upper c then ascii_of_nat (nat_of_ascii c + 32) else c.

Fixpoint string_mem (c : ascii) (s : string) : bool :=
  match s with
  | EmptyString => false
  | String d s' => Ascii.eqb c d || string_mem c s'
  end.

(** [validHeaderFieldByte]: the token characters of RFC 7230. *)
Definition validHeaderFieldByte (c : ascii) : bool :=
  is_lower c || is_upper c || is_digit c || string_mem c "!#$%&'*+-.^_`|~".

(** The loop of [canonicalMIMEHeaderKey]: upper-case the first letter and
    every letter after a hyphen, lower-case the others. *)
Fixpoint canonicalGo (upper : bool) (s : string) : string :=
  match s with
  | EmptyString => EmptyString
  | String c s' =>
      let c' := if upper then to_upper c else to_lower c in
      String c' (canonicalGo (Ascii.eqb c' "-") s')
  end.

(** [textproto.CanonicalMIMEHeaderKey]: a key holding a byte that is not a
    token character is returned unchanged. *)
Definition CanonicalMIMEHeaderKey (s : string) : string :=
  if Base64.string_forall validHeaderFieldByte s then canonicalGo true s else s.

(** [func (h MIMEHeader) Set(key, value string)]. *)
Definition Header_Set (h : MIMEHeader) (key value : string) : MIMEHeader :=
  <[CanonicalMIMEHeaderKey key := [value]]> h.

(** [multipart.Writer] over a [bytes.Buffer] (writes to it cannot fail):
    the boundary, the bytes written so far, and whether a part is open
    ([lastpart != nil]). *)
Record Writer : Type := mkWriter {
  boundary : string;
  buf : string;
  lastpart : bool
}.

(** [fmt.Sprintf("%x", buf[:])]: two lower-case hex digits per byte. *)
Definition hexdigit (n : N) : ascii :=
  Base64.tab_get "0123456789abcdef" (Z.of_N n).
Fixpoint hex (s : string) : string :=
  match s with
  | EmptyString => EmptyString
  | String c s' =>
      let n := N_of_ascii c in
      String (hexdigit (N.shiftr n 4)) (String (hexdigit (N.land n 15)) (hex s'))
  end.

(** [randomBoundary]: [rnd] stands for the 30 bytes read from [crypto/rand]. *)
Definition randomBoundary (rnd : string) : string := hex rnd.

Definition NewWriter (rnd : string) : Writer :=
  {| boundary := randomBoundary rnd; buf := EmptyString; lastpart := false |}.

Definition Boundary (w : Writer) : string := boundary w.

(** The header lines of [CreatePart]: keys sorted ([slices.Sort(keys)]),
    one line [key: value CRLF] for every value of every key. *)
Definition sortedKeys (h : MIMEHeader) : list string :=
  merge_sort String.le (map fst (map_to_list h)).

Definition headerLines (h : MIMEHeader) : string :=
  fold_right
    (fun k acc =>
       fold_right (fun v acc' => k +:+ ": " +:+ v +:+ CRLF +:+ acc') acc
                  (default [] (h !! k)))
    EmptyString (sortedKeys h).

(** [func (w *Writer) CreatePart(header)]: the delimiter line (preceded by
    CRLF when a part is already open), the header lines, an empty line. *)
Definition CreatePart (w : Writer) (header : MIMEHeader) : Writer :=
  let delim :=
    if lastpart w then CRLF +:+ "--" +:+ boundary w +:+ CRLF
    else "--" +:+ boundary w +:+ CRLF in
  {| boundary := boundary w;
     buf := buf w +:+ delim +:+ headerLines header +:+ CRLF;
     lastpart := true |}.

(** [part.Write(p)] on the part returned by the last [CreatePart]. *)
Definition Write (w : Writer) (p : string) : Writer :=
  {| boundary := boundary w; buf := buf w +:+ p; lastpart := lastpart w |}.

(** [func (w *Writer) Close()]: the closing delimiter. *)
Definition Close (w : Writer) : Writer :=
  {| boundary := boundary w;
     buf := buf w +:+ CRLF +:+ "--" +:+ boundary w +:+ "--" +:+ CRLF;
     lastpart := false |}.

End Multipart.

(** ** The Gmail API types and the collaborators of package [cmd] *)

(** Modelled from the spec: [gmail.MessagePart], a type of the API
    library, with the fields of the data model (MessagePart, section 3):
    MIME type, header list, transport-encoded body data (empty when
    absent), child parts.  The induction principle over the tree is
    [MessagePart_tree_ind] below. *)
Local Unset Elimination Schemes.
Inductive MessagePart : Type := mkPart {
  mimeType : string;
  headers : list (string * string);
  bodyData : string;
  children : list MessagePart
}.
Local Set Elimination Schemes.

(** [gmail.Message]: the fields this file reads or sets. *)
Record Message : Type := mkMessage {
  Id : string;
  ThreadId : string;
  Payload : MessagePart;
  Raw : string
}.

(** [gmail.MessagePartBody]: the answer of an attachment fetch. *)
Record MessagePartBody : Type := mkBody { Data : string }.

(** [gmail.BatchModifyMessagesRequest]. *)
Record BatchModifyMessagesRequest : Type := mkBatchModify {
  Ids : list string;
  AddLabelIds : list string;
  RemoveLabelIds : list string
}.

(** Modelled from the spec: [attachmentInfo] is declared in another file
    of the package; its fields are those of the AttachmentDescriptor
    (section 3), under the names [Run] and [addAttachmentToMultipart]
    read them by. *)
Record attachmentInfo : Type := mkAttachment {
  Filename : string;
  MimeType : string;
  AttachmentID : string
}.

(** [*gmail.Service]: what the remote side answers to each call. *)
Record Service : Type := mkService {
  Users_Messages_Get : string -> string -> string -> result Message;
  Users_Messages_Attachments_Get : string -> string -> string -> result MessagePartBody;
  Users_Messages_Send : string -> Message -> result Message;
  Users_Messages_BatchModify : string -> BatchModifyMessagesRequest -> result unit
}.

Record RootFlags : Type := mkFlags { Account : string }.

(** [context.Context]: the output mode read by [outfmt.IsJSON]. *)
Record Context : Type := mkContext { IsJSON : bool }.

(** Functions of package [cmd] that this file calls and that are defined in
    other files of the package, taken as parameters: account lookup, the
    service constructor (a package-level function variable), the label
    listing, the CSV splitter, the attachment collector and the decoder of
    attachment data. *)
Record Package : Type := mkPackage {
  requireAccount : RootFlags -> result string;
  newGmailService : string -> result Service;
  fetchLabelNameToID : Service -> result (gmap string string);
  splitCSV : string -> list string;
  collectAttachments : MessagePart -> list attachmentInfo;
  decodeBase64URLBytes : string -> result string
}.

(** Values of [map[string]any] handed to [outfmt.WriteJSON]. *)
Inductive any : Type :=
| VString (s : string)
| VInt (n : Z)
| VBool (b : bool)
| VStrings (l : list string).

(** What a run does, in order: service construction, remote calls, lines
    written to the error stream and to standard output. *)
Inductive event : Type :=
| EvNewService (account : string)
| EvLabelsList
| EvMessagesGet (userId id format : string)
| EvAttachmentsGet (userId messageId id : string)
| EvMessagesSend (userId : string) (msg : Message)
| EvBatchModify (userId : string) (req : BatchModifyMessagesRequest)
| EvErrPrintf (line : string)
| EvOutPrintf (line : string)
| EvWriteJSON (obj : gmap string any).

(** A command is its log of events and its outcome; an error ends it.
    Writing to the output streams is taken to succeed. *)
Definition M (A : Type) : Type := (list event * result A)%type.

Definition ret {A : Type} (a : A) : M A := ([], Ok a).
Definition fail {A : Type} (e : error) : M A := ([], Err e).
Definition bind {A B : Type} (m : M A) (k : A -> M B) : M B :=
  match m with
  | (l, Err e) => (l, Err e)
  | (l, Ok a) => let '(l', r) := k a in ((l ++ l')%list, r)
  end.
Definition lift {A : Type} (r : result A) : M A := ([], r).
Definition call {A : Type} (e : event) (r : result A) : M A := ([e], r).
Definition emit (e : event) : M unit := ([e], Ok tt).

Notation "x <- m ;; k" := (bind m (fun x => k))
  (at level 100, m at next level, right associativity).

Definition log {A : Type} (m : M A) : list event := fst m.
Definition outcome {A : Type} (m : M A) : result A := snd m.

(** Lower-casing, to compare header names without regard to case. *)
Fixpoint lower (s : string) : string :=
  match s with
  | EmptyString => EmptyString
  | String c s' => String (Multipart.to_lower c) (lower s')
  end.

(** Modelled from the spec: the lookup of [headerValue] (Header Extractor,
    4.1), defined in another file.  The value of the first header whose
    name matches case-insensitively, or the empty string. *)
Fixpoint headerLookup (hs : list (string * string)) (name : string) : string :=
  match hs with
  | [] => EmptyString
  | (n, v) :: hs' =>
      if String.eqb (lower n) (lower name) then v else headerLookup hs' name
  end.

(** Modelled from the spec: [headerValue] (Header Extractor, 4.1), defined
    in another file, on the header list of a part. *)
Definition headerValue (p : MessagePart) (name : string) : string :=
  headerLookup (headers p) name.

(** Modelled from the spec: what one part offers the Body Selector (4.2),
    defined in another file.  The decoded body data of a part of MIME type
    [mt] that carries some; a part whose data does not decode contributes
    nothing. *)
Definition ownBody (mt : string) (p : MessagePart) : option string :=
  if String.eqb (mimeType p) mt && negb (String.eqb (bodyData p) EmptyString)
  then Base64.URLDecodeString (bodyData p)
  else None.

(** Modelled from the spec: the walk of the Body Selector (4.2), defined
    in another file.  Pre-order, node before children, children left to
    right, the first part that offers a body wins. *)
Fixpoint findPartBody (mt : string) (p : MessagePart) : option string :=
  match ownBody mt p with
  | Some s => Some s
  | None =>
      (fix walk (l : list MessagePart) : option string :=
         match l with
         | [] => None
         | c :: l' =>
             match findPartBody mt c with
             | Some s => Some s
             | None => walk l'
             end
         end) (children p)
  end.

(** Modelled from the spec: [bestBodyForDisplay] (Body Selector, 4.2),
    defined in another file.  Plain text when the tree has any; otherwise
    the first HTML part, markup as it is, with the flag set; otherwise
    the empty body. *)
Definition bestBodyForDisplay (p : MessagePart) : string * bool :=
  match findPartBody "text/plain" p with
  | Some s => (s, false)
  | None =>
      match findPartBody "text/html" p with
      | Some s => (s, true)
      | None => (EmptyString, false)
      end
  end.

(** Modelled from the spec: [resolveLabelIDs] (Label Resolver, 4.5),
    defined in another file.  Each name is looked up in the table; a name
    with no match is dropped. *)
Definition resolveLabelIDs (names : list string) (table : gmap string string)
  : list string :=
  omap (fun name => table !! name) names.

(** Run a step and hand its error back as a value (the [if err := ...;
    err != nil] of a loop body that goes on). *)
Definition attempt {A : Type} (m : M A) : M (result A) := (fst m, Ok (snd m)).

(** ** [GmailMessagesModifyCmd] (lines 13-87) *)

Module Modify.

Record GmailMessagesModifyCmd : Type := mkCmd {
  IDs : list string;
  AddLabel : string;
  RemoveLabel : string;
  Archive : bool
}.

(** The scan of lines 54-60: [hasInbox] after the loop with its [break]. *)
Fixpoint hasInbox (removeIDs : list string) : bool :=
  match removeIDs with
  | [] => false
  | id :: rest => if String.eqb id "INBOX" then true else hasInbox rest
  end.

(** Lines 51-64: archive means remove from INBOX. *)
Definition archiveMerge (archive : bool) (removeIDs : list string) : list string :=
  if archive then
    if negb (hasInbox removeIDs) then (removeIDs ++ ["INBOX"])%list else removeIDs
  else removeIDs.

(** [func (c *GmailMessagesModifyCmd) Run(ctx, flags)] (lines 20-87). *)
Definition Run (pkg : Package) (ctx : Context) (c : GmailMessagesModifyCmd)
    (flags : RootFlags) : M unit :=
  account <- lift (requireAccount pkg flags) ;;
  if Nat.eqb (length (IDs c)) 0 then fail (usage "must specify --ids") else
  let addLabels := splitCSV pkg (AddLabel c) in
  let removeLabels := splitCSV pkg (RemoveLabel c) in
  if Nat.eqb (length addLabels) 0 && Nat.eqb (length removeLabels) 0
     && negb (Archive c)
  then fail (usage "must specify --add-label, --remove-label, and/or --archive")
  else
  svc <- call (EvNewService account) (newGmailService pkg account) ;;
  idMap <- call EvLabelsList (fetchLabelNameToID pkg svc) ;;
  let addIDs := resolveLabelIDs addLabels idMap in
  let removeIDs := resolveLabelIDs removeLabels idMap in
  let removeIDs := archiveMerge (Archive c) removeIDs in
  let req := {| Ids := IDs c; AddLabelIds := addIDs; RemoveLabelIds := removeIDs |} in
  _ <- call (EvBatchModify "me" req) (Users_Messages_BatchModify svc "me" req) ;;
  if IsJSON ctx then
    emit (EvWriteJSON
            (<["modified" := VStrings (IDs c)]>
               (<["count" := VInt (Z.of_nat (length (IDs c)))]>
                  (<["addedLabels" := VStrings addIDs]>
                     (<["removedLabels" := VStrings removeIDs]>
                        (<["archived" := VBool (Archive c)]> ∅))))))
  else
    emit (EvOutPrintf (Sprintf "Modified %d message(s)"
                               [AInt (Z.of_nat (length (IDs c)))])).

End Modify.

(** ** [GmailMessagesForwardCmd] *)

Record GmailMessagesForwardCmd : Type := mkForward {
  MessageID : string;
  To : string;
  Subject : string
}.

(** [encodeWeb64] encodes a string to URL-safe base64 (lines 362-365). *)
Definition encodeWeb64 (s : string) : string := Base64.URLEncodeToString s.

(** The format of the forward preamble (lines 256-257). *)
Definition forwardFormat : string :=
  "---------- Forwarded message ----------" +:+ NL
  +:+ "From: %s" +:+ NL +:+ "Date: %s" +:+ NL +:+ "Subject: %s" +:+ NL
  +:+ "To: %s" +:+ NL +:+ NL +:+ "%s".

(** The revision with attachments (lines 208-365). *)
Module Forward.

Import Multipart.

(** [addAttachmentToMultipart] fetches an attachment and adds it to the
    multipart writer (lines 325-360).  Both error returns come before the
    writer is touched; [CreatePart] and the writes go to a [bytes.Buffer]. *)
Definition addAttachmentToMultipart (pkg : Package) (svc : Service)
    (writer : Writer) (messageID : string) (att : attachmentInfo) : M Writer :=
  attachData <- call (EvAttachmentsGet "me" messageID (AttachmentID att))
                  (wrapErr "fetching attachment"
                     (Users_Messages_Attachments_Get svc "me" messageID
                        (AttachmentID att))) ;;
  data <- lift (wrapErr "decoding attachment data"
                  (decodeBase64URLBytes pkg (Data attachData))) ;;
  let header := Header_Set ∅ "Content-Type" (MimeType att) in
  let header := Header_Set header "Content-Disposition"
                  (Sprintf ("attachment; filename=" +:+ QUOTE +:+ "%s" +:+ QUOTE)
                           [AStr (Filename att)]) in
  let header := Header_Set header "Content-Transfer-Encoding" "base64" in
  let part := CreatePart writer header in
  ret (Write part (Base64.StdEncodeToString data)).

(** The loop of lines 280-286: a failed attachment is reported on the error
    stream and skipped. *)
Fixpoint attachAll (pkg : Package) (svc : Service) (messageID : string)
    (attachments : list attachmentInfo) (writer : Writer) : M Writer :=
  match attachments with
  | [] => ret writer
  | att :: rest =>
      r <- attempt (addAttachmentToMultipart pkg svc writer messageID att) ;;
      match r with
      | Err err =>
          _ <- emit (EvErrPrintf (Sprintf "Warning: failed to attach %s: %v"
                                          [AStr (Filename att); AErr err])) ;;
          attachAll pkg svc messageID rest writer
      | Ok writer' => attachAll pkg svc messageID rest writer'
      end
  end.

(** [func (c *GmailMessagesForwardCmd) Run(ctx, flags)] (lines 214-323).
    [rnd] stands for the random bytes [multipart.NewWriter] draws for its
    boundary; [CreatePart], the writes and [Close] go to a [bytes.Buffer]
    and raise no error. *)
Definition Run (pkg : Package) (ctx : Context) (rnd : string)
    (c : GmailMessagesForwardCmd) (flags : RootFlags) : M unit :=
  account <- lift (requireAccount pkg flags) ;;
  let messageID := TrimSpace (MessageID c) in
  if String.eqb messageID EmptyString then fail (usage "message ID is required") else
  let to := TrimSpace (To c) in
  if String.eqb to EmptyString then fail (usage "--to is required") else
  svc <- call (EvNewService account) (newGmailService pkg account) ;;
  original <- call (EvMessagesGet "me" messageID "full")
                (wrapErr "fetching message"
                   (Users_Messages_Get svc "me" messageID "full")) ;;
  let originalSubject := headerValue (Payload original) "Subject" in
  let originalFrom := headerValue (Payload original) "From" in
  let originalTo := headerValue (Payload original) "To" in
  let originalDate := headerValue (Payload original) "Date" in
  let subject :=
    if String.eqb (Subject c) EmptyString then "Fwd: " +:+ originalSubject
    else Subject c in
  let originalBody := fst (bestBodyForDisplay (Payload original)) in
  let forwardBody :=
    Sprintf forwardFormat
      [AStr originalFrom; AStr originalDate; AStr originalSubject;
       AStr originalTo; AStr originalBody] in
  let attachments := collectAttachments pkg (Payload original) in
  let writer := NewWriter rnd in
  let contentType :=
    Sprintf ("multipart/mixed; boundary=" +:+ QUOTE +:+ "%s" +:+ QUOTE)
            [AStr (Boundary writer)] in
  let textHeader := Header_Set ∅ "Content-Type" "text/plain; charset=utf-8" in
  let textPart := CreatePart writer textHeader in
  let writer := Write textPart forwardBody in
  writer <- attachAll pkg svc messageID attachments writer ;;
  let writer := Close writer in
  let rawMsg :=
    Sprintf ("To: %s" +:+ CRLF) [AStr to]
    +:+ Sprintf ("Subject: %s" +:+ CRLF) [AStr subject]
    +:+ Sprintf ("Content-Type: %s" +:+ CRLF) [AStr contentType]
    +:+ CRLF
    +:+ buf writer in
  let msg := {| Id := EmptyString; ThreadId := EmptyString;
                Payload := mkPart EmptyString [] EmptyString [];
                Raw := encodeWeb64 rawMsg |} in
  sent <- call (EvMessagesSend "me" msg)
            (wrapErr "sending forwarded message"
               (Users_Messages_Send svc "me" msg)) ;;
  if IsJSON ctx then
    emit (EvWriteJSON
            (<["sent" := VString (Id sent)]>
               (<["threadId" := VString (ThreadId sent)]>
                  (<["to" := VString to]>
                     (<["subject" := VString subject]>
                        (<["forwarded" := VString messageID]>
                           (<["attachments" := VInt (Z.of_nat (length attachments))]>
                              ∅)))))))
  else
    emit (EvOutPrintf
            (Sprintf "Forwarded message %s to %s with %d attachment(s) (sent: %s)"
                     [AStr messageID; AStr to;
                      AInt (Z.of_nat (length attachments)); AStr (Id sent)])).

End Forward.

(** The earlier revision carried in the same file (lines 103-187): no
    attachments, a single text/plain message.  The revision above
    replaces it. *)
Module ForwardPlain.

(** [func (c *GmailMessagesForwardCmd) Run(ctx, flags)] (lines 109-182). *)
Definition Run (pkg : Package) (ctx : Context)
    (c : GmailMessagesForwardCmd) (flags : RootFlags) : M unit :=
  account <- lift (requireAccount pkg flags) ;;
  let messageID := TrimSpace (MessageID c) in
  if String.eqb messageID EmptyString then fail (usage "message ID is required") else
  let to := TrimSpace (To c) in
  if String.eqb to EmptyString then fail (usage "--to is required") else
  svc <- call (EvNewService account) (newGmailService pkg account) ;;
  original <- call (EvMessagesGet "me" messageID "full")
                (wrapErr "fetching message"
                   (Users_Messages_Get svc "me" messageID "full")) ;;
  let originalSubject := headerValue (Payload original) "Subject" in
  let originalFrom := headerValue (Payload original) "From" in
  let originalTo := headerValue (Payload original) "To" in
  let originalDate := headerValue (Payload original) "Date" in
  let subject :=
    if String.eqb (Subject c) EmptyString then "Fwd: " +:+ originalSubject
    else Subject c in
  let originalBody := fst (bestBodyForDisplay (Payload original)) in
  let forwardBody :=
    Sprintf forwardFormat
      [AStr originalFrom; AStr originalDate; AStr originalSubject;
       AStr originalTo; AStr originalBody] in
  let rawMsg :=
    Sprintf ("To: %s" +:+ NL) [AStr to]
    +:+ Sprintf ("Subject: %s" +:+ NL) [AStr subject]
    +:+ "Content-Type: text/plain; charset=utf-8" +:+ NL
    +:+ NL
    +:+ forwardBody in
  let msg := {| Id := EmptyString; ThreadId := EmptyString;
                Payload := mkPart EmptyString [] EmptyString [];
                Raw := encodeWeb64 rawMsg |} in
  sent <- call (EvMessagesSend "me" msg)
            (wrapErr "sending forwarded message"
               (Users_Messages_Send svc "me" msg)) ;;
  if IsJSON ctx then
    emit (EvWriteJSON
            (<["sent" := VString (Id sent)]>
               (<["threadId" := VString (ThreadId sent)]>
                  (<["to" := VString to]>
                     (<["subject" := VString subject]>
                        (<["forwarded" := VString messageID]> ∅))))))
  else
    emit (EvOutPrintf
            (Sprintf "Forwarded message %s to %s (sent: %s)"
                     [AStr messageID; AStr to; AStr (Id sent)])).

End ForwardPlain.

(** ** What the claims speak of *)

(** The composed subject (item 2 of the Message Composer). *)
Definition composedSubject (override originalSubject : string) : string :=
  if String.eqb override EmptyString then "Fwd: " +:+ originalSubject else override.

(** The forward preamble followed by the quoted body. *)
Definition preamble (original : MessagePart) : string :=
  "---------- Forwarded message ----------" +:+ NL
  +:+ "From: " +:+ headerValue original "From" +:+ NL
  +:+ "Date: " +:+ headerValue original "Date" +:+ NL
  +:+ "Subject: " +:+ headerValue original "Subject" +:+ NL
  +:+ "To: " +:+ headerValue original "To" +:+ NL +:+ NL
  +:+ fst (bestBodyForDisplay original).

(** A serialized MIME part: header lines in the order written, then the body. *)
Record mimePart : Type := mkMime {
  partHeaders : list (string * string);
  partBody : string
}.

Definition partText (p : mimePart) : string :=
  fold_right (fun kv acc => fst kv +:+ ": " +:+ snd kv +:+ CRLF +:+ acc)
             EmptyString (partHeaders p)
  +:+ CRLF +:+ partBody p.

Fixpoint laterParts (b : string) (ps : list mimePart) : string :=
  match ps with
  | [] => EmptyString
  | p :: ps' => CRLF +:+ "--" +:+ b +:+ CRLF +:+ partText p +:+ laterParts b ps'
  end.

(** A multipart body whose parts are delimited by the boundary [b]. *)
Definition multipartBody (b : string) (first : mimePart) (rest : list mimePart)
  : string :=
  "--" +:+ b +:+ CRLF +:+ partText first +:+ laterParts b rest
  +:+ CRLF +:+ "--" +:+ b +:+ "--" +:+ CRLF.

Definition textPart (body : string) : mimePart :=
  {| partHeaders := [("Content-Type", "text/plain; charset=utf-8")];
     partBody := body |}.

Definition attachmentPart (att : attachmentInfo) (data : string) : mimePart :=
  {| partHeaders :=
       [("Content-Disposition",
         "attachment; filename=" +:+ QUOTE +:+ Filename att +:+ QUOTE);
        ("Content-Transfer-Encoding", "base64");
        ("Content-Type", MimeType att)];
     partBody := Base64.StdEncodeToString data |}.

(** Fetching and decoding one attachment: its bytes, or the error. *)
Definition fetchAttachment (pkg : Package) (svc : Service) (messageID : string)
    (att : attachmentInfo) : result string :=
  match wrapErr "fetching attachment"
          (Users_Messages_Attachments_Get svc "me" messageID (AttachmentID att)) with
  | Ok attachData =>
      wrapErr "decoding attachment data" (decodeBase64URLBytes pkg (Data attachData))
  | Err e => Err e
  end.

(** The attachments actually embedded: those fetched and decoded. *)
Definition embedded (pkg : Package) (svc : Service) (messageID : string)
    (attachments : list attachmentInfo) : list (attachmentInfo * string) :=
  omap (fun att =>
          match fetchAttachment pkg svc messageID att with
          | Ok data => Some (att, data)
          | Err _ => None
          end) attachments.

Definition embeddedParts (pkg : Package) (svc : Service) (messageID : string)
    (attachments : list attachmentInfo) : list mimePart :=
  map (fun ad => attachmentPart (fst ad) (snd ad))
      (embedded pkg svc messageID attachments).

Definition warning (att : attachmentInfo) (err : error) : string :=
  "Warning: failed to attach " +:+ Filename att +:+ ": " +:+ Error err.

(** The events of the attachment loop: one fetch per attachment, in order,
    each failed one followed by its warning. *)
Definition attachEvents (pkg : Package) (svc : Service) (messageID : string)
    (attachments : list attachmentInfo) : list event :=
  flat_map (fun att =>
              EvAttachmentsGet "me" messageID (AttachmentID att)
              :: match fetchAttachment pkg svc messageID att with
                 | Ok _ => []
                 | Err e => [EvErrPrintf (warning att e)]
                 end) attachments.

(** The boundary a Content-Type value declares: the quoted text that
    follows [boundary=]. *)
Fixpoint untilQuote (s : string) : option string :=
  match s with
  | EmptyString => None
  | String c s' =>
      if Ascii.eqb c DQUOTE then Some EmptyString
      else option_map (String c) (untilQuote s')
  end.

Fixpoint declaredBoundary (contentType : string) : option string :=
  match stripPrefix ("boundary=" +:+ QUOTE) contentType with
  | Some rest => untilQuote rest
  | None =>
      match contentType with
      | EmptyString => None
      | String _ ct' => declaredBoundary ct'
      end
  end.

(** The header block of the outgoing message and the message itself. *)
Definition headerBlock (to subject contentType : string) : string :=
  "To: " +:+ to +:+ CRLF +:+ "Subject: " +:+ subject +:+ CRLF
  +:+ "Content-Type: " +:+ contentType +:+ CRLF.

Definition multipartType (b : string) : string :=
  "multipart/mixed; boundary=" +:+ QUOTE +:+ b +:+ QUOTE.

(** The message [Forward.Run] hands to the send call, as the claims
    describe it: header block, empty line, then the text part and one part
    per embedded attachment between the declared boundary. *)
Definition composedMessage (pkg : Package) (svc : Service) (rnd : string)
    (c : GmailMessagesForwardCmd) (original : MessagePart) : string :=
  let b := Multipart.randomBoundary rnd in
  headerBlock (TrimSpace (To c))
    (composedSubject (Subject c) (headerValue original "Subject"))
    (multipartType b)
  +:+ CRLF
  +:+ multipartBody b (textPart (preamble original))
        (embeddedParts pkg svc (TrimSpace (MessageID c))
           (collectAttachments pkg original)).

Definition sendRequest (raw : string) : Message :=
  {| Id := EmptyString; ThreadId := EmptyString;
     Payload := mkPart EmptyString [] EmptyString [];
     Raw := raw |}.

(** The parts of a tree in pre-order. *)
Fixpoint partsOf (p : MessagePart) : list MessagePart :=
  p :: (fix walk (l : list MessagePart) : list MessagePart :=
          match l with
          | [] => []
          | c :: l' => (partsOf c ++ walk l')%list
          end) (children p).

(** A part of MIME type [mt] that carries body data. *)
Definition carries (mt : string) (p : MessagePart) : Prop :=
  mimeType p = mt /\ bodyData p <> EmptyString.

(** How often [x] occurs in a list of label IDs. *)
Definition occurrences (x : string) (l : list string) : nat :=
  length (filter (fun y => y = x) l).

(** ** Reading a log *)

Definition sentMessages (l : list event) : list Message :=
  omap (fun e => match e with EvMessagesSend _ msg => Some msg | _ => None end) l.

Definition fetchedAttachments (l : list event) : list string :=
  omap (fun e => match e with EvAttachmentsGet _ _ id => Some id | _ => None end) l.

Definition warnings (l : list event) : list string :=
  omap (fun e => match e with EvErrPrintf line => Some line | _ => None end) l.

Definition batchModifies (l : list event) : list BatchModifyMessagesRequest :=
  omap (fun e => match e with EvBatchModify _ req => Some req | _ => None end) l.

Definition jsonResults (l : list event) : list (gmap string any) :=
  omap (fun e => match e with EvWriteJSON obj => Some obj | _ => None end) l.

Definition outLines (l : list event) : list string :=
  omap (fun e => match e with EvOutPrintf line => Some line | _ => None end) l.

(** The warnings of the attachments that could not be fetched or decoded. *)
Definition failedWarnings (pkg : Package) (svc : Service) (messageID : string)
    (attachments : list attachmentInfo) : list string :=
  omap (fun att =>
          match fetchAttachment pkg svc messageID att with
          | Ok _ => None
          | Err e => Some (warning att e)
          end) attachments.

(** The result line of a successful forward, reporting [count] attachments. *)
Definition forwardReport (ctx : Context) (messageID to subject : string)
    (count : nat) (sent : Message) : event :=
  if IsJSON ctx then
    EvWriteJSON
      (<["sent" := VString (Id sent)]>
         (<["threadId" := VString (ThreadId sent)]>
            (<["to" := VString to]>
               (<["subject" := VString subject]>
                  (<["forwarded" := VString messageID]>
                     (<["attachments" := VInt (Z.of_nat count)]> ∅))))))
  else
    EvOutPrintf
      (Sprintf "Forwarded message %s to %s with %d attachment(s) (sent: %s)"
               [AStr messageID; AStr to; AInt (Z.of_nat count); AStr (Id sent)]).

(** The invocation passes the validation, gets its service and fetches
    the original message. *)
Definition reachesComposer (pkg : Package) (flags : RootFlags)
    (c : GmailMessagesForwardCmd) (account : string) (svc : Service)
    (original : Message) : Prop :=
  requireAccount pkg flags = Ok account
  /\ TrimSpace (MessageID c) <> EmptyString
  /\ TrimSpace (To c) <> EmptyString
  /\ newGmailService pkg account = Ok svc
  /\ Users_Messages_Get svc "me" (TrimSpace (MessageID c)) "full" = Ok original.

(** The modify invocation passes its checks, gets its service and the
    label table. *)
Definition reachesBatchModify (pkg : Package) (flags : RootFlags)
    (c : Modify.GmailMessagesModifyCmd) (account : string) (svc : Service)
    (idMap : gmap string string) : Prop :=
  requireAccount pkg flags = Ok account
  /\ Modify.IDs c <> []
  /\ (splitCSV pkg (Modify.AddLabel c) <> []
      \/ splitCSV pkg (Modify.RemoveLabel c) <> []
      \/ Modify.Archive c = true)
  /\ newGmailService pkg account = Ok svc
  /\ fetchLabelNameToID pkg svc = Ok idMap.

(** A text/plain candidate of the Body Selector: a part of that type whose
    body data is there and decodes to [s]. *)
Definition plainCandidate (p : MessagePart) (s : string) : Prop :=
  carries "text/plain" p /\ Base64.URLDecodeString (bodyData p) = Some s.

(** Reading a message back: its header lines (up to the first empty line,
    lines ending in CRLF) and the value of a header field. *)
Fixpoint headerLinesOf (cur raw : string) : list string :=
  match raw with
  | EmptyString => []
  | String c rest =>
      if Ascii.eqb c CR then
        match rest with
        | String d rest' =>
            if Ascii.eqb d LF then
              if String.eqb cur EmptyString then []
              else String.rev cur :: headerLinesOf EmptyString rest'
            else headerLinesOf (String c cur) rest
        | EmptyString => []
        end
      else headerLinesOf (String c cur) rest
  end.

Definition headerField (name raw : string) : option string :=
  head (omap (stripPrefix (name +:+ ": ")) (headerLinesOf EmptyString raw)).

(** A flat text/plain message, as the earlier revision lays it out but
    with CRLF line ends. *)
Definition flatMessage (to subject body : string) : string :=
  headerBlock to subject "text/plain; charset=utf-8" +:+ CRLF +:+ body.

(** ** A sample environment, to run the commands on concrete inputs *)

Module Sample.

(** A comma splitter standing for [splitCSV]: fields between commas, the
    empty ones dropped. *)
Fixpoint splitGo (cur s : string) : list string :=
  match s with
  | EmptyString => if String.eqb cur EmptyString then [] else [String.rev cur]
  | String c s' =>
      if Ascii.eqb c ","
      then if String.eqb cur EmptyString then splitGo EmptyString s'
           else String.rev cur :: splitGo EmptyString s'
      else splitGo (String c cur) s'
  end.
Definition splitCommas (s : string) : list string := splitGo EmptyString s.

Definition plainPart : MessagePart :=
  mkPart "text/plain" [] (encodeWeb64 "Hello World") [].
Definition htmlPart : MessagePart :=
  mkPart "text/html" [] (encodeWeb64 "<p>Hello World</p>") [].
Definition brokenPlainPart : MessagePart :=
  mkPart "text/plain" [] "!!!" [].

Definition originalHeaders : list (string * string) :=
  [("From", "sender@example.com"); ("To", "me@example.com");
   ("subject", "Original Subject"); ("Date", "Mon, 03 Feb 2026 10:00:00 -0800")].

Definition original : Message :=
  {| Id := "m1"; ThreadId := "t1";
     Payload := mkPart "multipart/mixed" originalHeaders EmptyString
                  [mkPart "multipart/alternative" [] EmptyString
                     [htmlPart; plainPart]];
     Raw := EmptyString |}.

Definition report : attachmentInfo :=
  {| Filename := "report.pdf"; MimeType := "application/pdf"; AttachmentID := "att-1" |}.
Definition photo : attachmentInfo :=
  {| Filename := "photo.png"; MimeType := "image/png"; AttachmentID := "att-2" |}.

Definition sentAnswer : Message :=
  {| Id := "sent123"; ThreadId := "t1";
     Payload := mkPart EmptyString [] EmptyString []; Raw := EmptyString |}.

(** A service that knows message [m1]; fetching an attachment whose ID is
    in [down] fails. *)
Definition service (down : list string) : Service :=
  {| Users_Messages_Get := fun _ id _ =>
       if String.eqb id "m1" then Ok original else Err (failure "404 not found");
     Users_Messages_Attachments_Get := fun _ _ id =>
       if existsb (String.eqb id) down then Err (failure "503 backend error")
       else Ok {| Data := encodeWeb64 ("content of " +:+ id) |};
     Users_Messages_Send := fun _ _ => Ok sentAnswer;
     Users_Messages_BatchModify := fun _ _ => Ok tt |}.

Definition labels : gmap string string :=
  <["INBOX" := "INBOX"]> (<["Work" := "Label_7"]> ∅).

(** The package with a collector that finds [attachments]. *)
Definition package (attachments : list attachmentInfo) (down : list string)
  : Package :=
  {| requireAccount := fun flags =>
       if String.eqb (Account flags) EmptyString then Err (usage "missing --account")
       else Ok (Account flags);
     newGmailService := fun _ => Ok (service down);
     fetchLabelNameToID := fun _ => Ok labels;
     splitCSV := splitCommas;
     collectAttachments := fun _ => attachments;
     decodeBase64URLBytes := fun s =>
       match Base64.URLDecodeString s with
       | Some data => Ok data
       | None => Err (failure "illegal base64 data")
       end |}.

Definition flags : RootFlags := {| Account := "a@b.com" |}.
Definition json : Context := {| IsJSON := true |}.
Definition human : Context := {| IsJSON := false |}.
Definition rnd : string := bytes (seq 1 30).

Definition forward : GmailMessagesForwardCmd :=
  {| MessageID := "m1"; To := " recipient@example.com "; Subject := EmptyString |}.
Definition forwardCustom : GmailMessagesForwardCmd :=
  {| MessageID := "m1"; To := "recipient@example.com";
     Subject := "Custom Forward Subject" |}.
Definition forwardNoRecipient : GmailMessagesForwardCmd :=
  {| MessageID := "m1"; To := String "009" " "; Subject := EmptyString |}.

Definition archiveInbox : Modify.GmailMessagesModifyCmd :=
  {| Modify.IDs := ["m1"; "m2"]; Modify.AddLabel := "Work";
     Modify.RemoveLabel := "INBOX"; Modify.Archive := true |}.
Definition archiveOnly : Modify.GmailMessagesModifyCmd :=
  {| Modify.IDs := ["m1"]; Modify.AddLabel := EmptyString;
     Modify.RemoveLabel := EmptyString; Modify.Archive := true |}.
Definition archiveInboxTwice : Modify.GmailMessagesModifyCmd :=
  {| Modify.IDs := ["m1"]; Modify.AddLabel := EmptyString;
     Modify.RemoveLabel := "INBOX,INBOX"; Modify.Archive := true |}.

(** Commands that name labels to add and to remove, with INBOX among the
    labels to remove, without it, and without the archive flag. *)
Definition archiveAmongOthers : Modify.GmailMessagesModifyCmd :=
  {| Modify.IDs := ["m1"; "m2"]; Modify.AddLabel := "Work";
     Modify.RemoveLabel := "Work,INBOX,Work"; Modify.Archive := true |}.
Definition archiveAfterOthers : Modify.GmailMessagesModifyCmd :=
  {| Modify.IDs := ["m1"; "m2"]; Modify.AddLabel := "Work";
     Modify.RemoveLabel := "Work,Work"; Modify.Archive := true |}.
Definition removeWithoutArchive : Modify.GmailMessagesModifyCmd :=
  {| Modify.IDs := ["m1"; "m2"]; Modify.AddLabel := "Work";
     Modify.RemoveLabel := "Work,Work"; Modify.Archive := false |}.

End Sample.

(** ** The Classroom delete commands

    [ClassroomTopicsDeleteCmd.Run] (classroom_topics.go, lines 209-249),
    [ClassroomGuardiansDeleteCmd.Run] (classroom_guardians.go, lines
    129-169) and [ClassroomInvitationsDeleteCmd.Run]
    (classroom_invitations.go, lines 206-240). *)

Module Classroom.

Definition TAB : string := String "009"%char EmptyString.

(** [*classroom.Service]: what the remote side answers to the delete
    calls. *)
Record Service : Type := mkService {
  Courses_Topics_Delete : string -> string -> result unit;
  UserProfiles_Guardians_Delete : string -> string -> result unit;
  Invitations_Delete : string -> result unit
}.

(** Functions of package [cmd] defined in other files, taken as
    parameters: the confirmation of a destructive action, the service
    constructor, the error wrapper. *)
Record Package : Type := mkPackage {
  requireAccount : RootFlags -> result string;
  confirmDestructive : Context -> RootFlags -> string -> result unit;
  newClassroomService : string -> result Service;
  wrapClassroomError : error -> error
}.

Inductive event : Type :=
| EvConfirm (message : string)
| EvNewService (account : string)
| EvTopicsDelete (courseId topicId : string)
| EvGuardiansDelete (studentId guardianId : string)
| EvInvitationsDelete (invitationId : string)
| EvOutPrintf (line : string)
| EvWriteJSON (obj : gmap string any).

(** A command is its log of events and its outcome, as for the Gmail
    commands. *)
Definition M (A : Type) : Type := (list event * result A)%type.

Definition fail {A : Type} (e : error) : M A := ([], Err e).
Definition bind {A B : Type} (m : M A) (k : A -> M B) : M B :=
  match m with
  | (l, Err e) => (l, Err e)
  | (l, Ok a) => let '(l', r) := k a in ((l ++ l')%list, r)
  end.
Definition lift {A : Type} (r : result A) : M A := ([], r).
Definition call {A : Type} (e : event) (r : result A) : M A := ([e], r).
Definition emit (e : event) : M unit := ([e], Ok tt).

Definition log {A : Type} (m : M A) : list event := fst m.
Definition outcome {A : Type} (m : M A) : result A := snd m.

Notation "x <~ m ;; k" := (bind m (fun x => k))
  (at level 100, m at next level, right associativity).

(** [return wrapClassroomError(err)] on the error branch of a call. *)
Definition wrapped {A : Type} (pkg : Package) (r : result A) : result A :=
  match r with
  | Ok a => Ok a
  | Err e => Err (wrapClassroomError pkg e)
  end.

Record ClassroomTopicsDeleteCmd : Type := mkTopicsDelete {
  CourseID : string;
  TopicID : string
}.

Definition TopicsDelete_Run (pkg : Package) (ctx : Context)
    (c : ClassroomTopicsDeleteCmd) (flags : RootFlags) : M unit :=
  account <~ lift (requireAccount pkg flags) ;;
  let courseID := TrimSpace (CourseID c) in
  let topicID := TrimSpace (TopicID c) in
  if String.eqb courseID EmptyString then fail (usage "empty courseId") else
  if String.eqb topicID EmptyString then fail (usage "empty topicId") else
  let message := Sprintf "delete topic %s from %s" [AStr topicID; AStr courseID] in
  _ <~ call (EvConfirm message) (confirmDestructive pkg ctx flags message) ;;
  svc <~ call (EvNewService account) (wrapped pkg (newClassroomService pkg account)) ;;
  _ <~ call (EvTopicsDelete courseID topicID)
         (wrapped pkg (Courses_Topics_Delete svc courseID topicID)) ;;
  if IsJSON ctx then
    emit (EvWriteJSON
            (<["deleted" := VBool true]>
               (<["courseId" := VString courseID]>
                  (<["topicId" := VString topicID]> ∅))))
  else
    _ <~ emit (EvOutPrintf (Sprintf ("deleted" +:+ TAB +:+ "true") [])) ;;
    _ <~ emit (EvOutPrintf (Sprintf ("course_id" +:+ TAB +:+ "%s") [AStr courseID])) ;;
    emit (EvOutPrintf (Sprintf ("topic_id" +:+ TAB +:+ "%s") [AStr topicID])).

Record ClassroomGuardiansDeleteCmd : Type := mkGuardiansDelete {
  StudentID : string;
  GuardianID : string
}.

Definition GuardiansDelete_Run (pkg : Package) (ctx : Context)
    (c : ClassroomGuardiansDeleteCmd) (flags : RootFlags) : M unit :=
  account <~ lift (requireAccount pkg flags) ;;
  let studentID := TrimSpace (StudentID c) in
  let guardianID := TrimSpace (GuardianID c) in
  if String.eqb studentID EmptyString then fail (usage "empty studentId") else
  if String.eqb guardianID EmptyString then fail (usage "empty guardianId") else
  let message :=
    Sprintf "delete guardian %s for student %s" [AStr guardianID; AStr studentID] in
  _ <~ call (EvConfirm message) (confirmDestructive pkg ctx flags message) ;;
  svc <~ call (EvNewService account) (wrapped pkg (newClassroomService pkg account)) ;;
  _ <~ call (EvGuardiansDelete studentID guardianID)
         (wrapped pkg (UserProfiles_Guardians_Delete svc studentID guardianID)) ;;
  if IsJSON ctx then
    emit (EvWriteJSON
            (<["deleted" := VBool true]>
               (<["studentId" := VString studentID]>
                  (<["guardianId" := VString guardianID]> ∅))))
  else
    _ <~ emit (EvOutPrintf (Sprintf ("deleted" +:+ TAB +:+ "true") [])) ;;
    _ <~ emit (EvOutPrintf (Sprintf ("student_id" +:+ TAB +:+ "%s") [AStr studentID])) ;;
    emit (EvOutPrintf (Sprintf ("guardian_id" +:+ TAB +:+ "%s") [AStr guardianID])).

Record ClassroomInvitationsDeleteCmd : Type := mkInvitationsDelete {
  InvitationID : string
}.

Definition InvitationsDelete_Run (pkg : Package) (ctx : Context)
    (c : ClassroomInvitationsDeleteCmd) (flags : RootFlags) : M unit :=
  account <~ lift (requireAccount pkg flags) ;;
  let invitationID := TrimSpace (InvitationID c) in
  if String.eqb invitationID EmptyString then fail (usage "empty invitationId") else
  let message := Sprintf "delete invitation %s" [AStr invitationID] in
  _ <~ call (EvConfirm message) (confirmDestructive pkg ctx flags message) ;;
  svc <~ call (EvNewService account) (wrapped pkg (newClassroomService pkg account)) ;;
  _ <~ call (EvInvitationsDelete invitationID)
         (wrapped pkg (Invitations_Delete svc invitationID)) ;;
  if IsJSON ctx then
    emit (EvWriteJSON
            (<["deleted" := VBool true]>
               (<["invitationId" := VString invitationID]> ∅)))
  else
    _ <~ emit (EvOutPrintf (Sprintf ("deleted" +:+ TAB +:+ "true") [])) ;;
    emit (EvOutPrintf
            (Sprintf ("invitation_id" +:+ TAB +:+ "%s") [AStr invitationID])).

(** A sample environment: the user confirms unless [refuse]. *)
Definition samplePackage (refuse : bool) : Package :=
  {| requireAccount := fun flags => Ok (Account flags);
     confirmDestructive := fun _ _ _ =>
       if refuse then Err (failure "cancelled") else Ok tt;
     newClassroomService := fun _ =>
       Ok {| Courses_Topics_Delete := fun _ _ => Ok tt;
             UserProfiles_Guardians_Delete := fun _ _ => Ok tt;
             Invitations_Delete := fun _ => Ok tt |};
     wrapClassroomError := fun e => Errorf_w "classroom" e |}.

Definition sampleTopic : ClassroomTopicsDeleteCmd :=
  {| CourseID := " c1 "; TopicID := "t1" |}.
Definition sampleGuardian : ClassroomGuardiansDeleteCmd :=
  {| StudentID := "s1"; GuardianID := " g1" |}.
Definition sampleInvitation : ClassroomInvitationsDeleteCmd :=
  {| InvitationID := "i1 " |}.

End Classroom.

(** ** Sample environments with failing collaborators *)

Module Faults.

(** A service whose send and batch-modify calls fail. *)
Definition rejecting : Service :=
  {| Users_Messages_Get := Users_Messages_Get (Sample.service []);
     Users_Messages_Attachments_Get :=
       Users_Messages_Attachments_Get (Sample.service ["att-2"]);
     Users_Messages_Send := fun _ _ => Err (failure "500 backend error");
     Users_Messages_BatchModify := fun _ _ => Err (failure "403 forbidden") |}.

(** The sample package on the service [svc]; the label listing fails
    unless [labelsOk]. *)
Definition package (svc : Service) (labelsOk : bool) : Package :=
  {| requireAccount := requireAccount (Sample.package [] []);
     newGmailService := fun _ => Ok svc;
     fetchLabelNameToID := fun _ =>
       if labelsOk then Ok Sample.labels else Err (failure "labels: 500");
     splitCSV := Sample.splitCommas;
     collectAttachments := fun _ => [Sample.report; Sample.photo];
     decodeBase64URLBytes := decodeBase64URLBytes (Sample.package [] []) |}.

Definition noIDs : Modify.GmailMessagesModifyCmd :=
  {| Modify.IDs := []; Modify.AddLabel := "Work";
     Modify.RemoveLabel := EmptyString; Modify.Archive := true |}.
Definition noAction : Modify.GmailMessagesModifyCmd :=
  {| Modify.IDs := ["m1"]; Modify.AddLabel := EmptyString;
     Modify.RemoveLabel := ","; Modify.Archive := false |}.
Definition forwardUnknown : GmailMessagesForwardCmd :=
  {| MessageID := " m2 "; To := "recipient@example.com"; Subject := EmptyString |}.

End Faults.

(** * Facts *)

(** ** Base64: what the encoder writes can be read back *)

Ltac dlia := Z.div_mod_to_equations; lia.

Section Base64Facts.
Import Base64.

Lemma byteZ_range (a : ascii) : 0 <= byteZ a < 256.
Proof.
  unfold byteZ. pose proof (N_ascii_bounded a). lia.
Qed.

Lemma Zbyte_byteZ (a : ascii) : Zbyte (byteZ a) = a.
Proof.
  unfold Zbyte, byteZ. rewrite N2Z.id. apply ascii_N_embedding.
Qed.

(** Disjoint bit ranges: or-ing a value below [2^k] into a multiple of
    [2^k] adds it. *)
Lemma Zbyte_eq (z : Z) (a : ascii) : z = byteZ a -> Zbyte z = a.
Proof. intros ->. apply Zbyte_byteZ. Qed.

Lemma lor_low_bits (x y k p : Z) :
  p = 2 ^ k -> 0 <= k -> 0 <= y < p -> Z.lor (x * p) y = x * p + y.
Proof.
  intros -> Hk Hy.
  rewrite <- Z.add_lor_land.
  assert (Hland : Z.land (x * 2 ^ k) y = 0).
  { apply Z.bits_inj'. intros n Hn.
    rewrite Z.land_spec, Z.bits_0.
    destruct (Z.lt_ge_cases n k) as [Hlt | Hge].
    - rewrite Z.mul_pow2_bits_low by lia. reflexivity.
    - rewrite andb_comm.
      destruct (Z.eq_dec y 0) as [-> | Hy0].
      + rewrite Z.bits_0. reflexivity.
      + rewrite Z.bits_above_log2; [reflexivity | lia |].
        apply Z.log2_lt_pow2; [lia |].
        apply Z.lt_le_trans with (2 ^ k); [lia |].
        apply Z.pow_le_mono_r; lia. }
  rewrite Hland. lia.
Qed.

Lemma sextet_div (val k : Z) : 0 <= k -> sextet val k = (val / 2 ^ k) mod 64.
Proof.
  intros Hk. unfold sextet.
  rewrite Z.shiftr_div_pow2 by lia.
  change 63 with (Z.ones 6). rewrite Z.land_ones by lia. reflexivity.
Qed.

Lemma group3 (a b c : Z) :
  0 <= a < 256 -> 0 <= b < 256 -> 0 <= c < 256 ->
  Z.lor (Z.lor (Z.shiftl a 16) (Z.shiftl b 8)) c = a * 65536 + b * 256 + c.
Proof.
  intros Ha Hb Hc.
  rewrite !Z.shiftl_mul_pow2 by lia.
  change (2 ^ 16) with 65536. change (2 ^ 8) with 256.
  rewrite (lor_low_bits a (b * 256) 16 65536); [| reflexivity | lia | lia].
  replace (a * 65536 + b * 256) with ((a * 256 + b) * 256) by lia.
  rewrite (lor_low_bits _ c 8 256); [| reflexivity | lia | lia].
  reflexivity.
Qed.

Lemma group2 (a b : Z) :
  0 <= a < 256 -> 0 <= b < 256 ->
  Z.lor (Z.shiftl a 16) (Z.shiftl b 8) = a * 65536 + b * 256.
Proof.
  intros Ha Hb.
  pose proof (group3 a b 0 Ha Hb ltac:(lia)) as H.
  rewrite Z.lor_0_r in H. lia.
Qed.


Lemma checkTable_good (tab : string) : checkTable tab = true -> goodTable tab.
Proof.
  unfold checkTable. intros H i Hi.
  rewrite forallb_forall in H.
  specialize (H (Z.to_nat i)).
  rewrite Z2Nat.id in H by lia.
  assert (Hin : In (Z.to_nat i) (seq 0 64)) by (apply in_seq; lia).
  specialize (H Hin).
  destruct (tab_index tab (tab_get tab i)) as [j |]; [| discriminate].
  apply andb_true_iff in H as [Hj Hp].
  apply Z.eqb_eq in Hj. subst j.
  split; [reflexivity | now apply negb_true_iff].
Qed.

Lemma encodeURL_good : goodTable encodeURL.
Proof. apply checkTable_good. vm_compute. reflexivity. Qed.

Lemma encodeStd_good : goodTable encodeStd.
Proof. apply checkTable_good. vm_compute. reflexivity. Qed.

Lemma is_pad_padChar : is_pad padChar = true.
Proof. reflexivity. Qed.

Lemma Encode_empty (tab s : string) : Encode tab s = EmptyString -> s = EmptyString.
Proof.
  destruct s as [| a [| b [| c s]]]; simpl; intros H; [reflexivity | discriminate ..].
Qed.

(** Induction over a byte string three bytes at a time. *)
Lemma string_ind_by3 (P : string -> Prop) :
  P EmptyString ->
  (forall a, P (String a EmptyString)) ->
  (forall a b, P (String a (String b EmptyString))) ->
  (forall a b c s, P s -> P (String a (String b (String c s)))) ->
  forall s, P s.
Proof.
  intros H0 H1 H2 H3.
  assert (Hn : forall n s, (String.length s <= n)%nat -> P s).
  { induction n as [| n IH]; intros s Hs.
    - destruct s; [exact H0 | simpl in Hs; lia].
    - destruct s as [| a [| b [| c s]]]; auto.
      apply H3, IH. simpl in Hs. lia. }
  intros s. apply (Hn (String.length s)). lia.
Qed.

Lemma DecodeQuanta_Encode (tab s : string) :
  goodTable tab -> DecodeQuanta tab (Encode tab s) = Some s.
Proof.
  intros Hgood. induction s as [| a | a b | a b c s IH] using string_ind_by3.
  - reflexivity.
  - pose proof (byteZ_range a) as Ha.
    cbn [Encode DecodeQuanta].
    rewrite !sextet_div by lia. rewrite Z.shiftl_mul_pow2 by lia.
    change (2 ^ 16) with 65536. change (2 ^ 18) with 262144. change (2 ^ 12) with 4096.
    destruct (Hgood ((byteZ a * 65536 / 262144) mod 64)) as [E0 _]; [dlia |].
    destruct (Hgood ((byteZ a * 65536 / 4096) mod 64)) as [E1 _]; [dlia |].
    rewrite E0, E1, is_pad_padChar.
    rewrite (Zbyte_eq _ a); [reflexivity | dlia].
  - pose proof (byteZ_range a) as Ha. pose proof (byteZ_range b) as Hb.
    cbn [Encode DecodeQuanta].
    rewrite !sextet_div by lia. rewrite group2 by assumption.
    change (2 ^ 6) with 64. change (2 ^ 18) with 262144. change (2 ^ 12) with 4096.
    set (val := byteZ a * 65536 + byteZ b * 256).
    destruct (Hgood ((val / 262144) mod 64)) as [E0 _]; [dlia |].
    destruct (Hgood ((val / 4096) mod 64)) as [E1 _]; [dlia |].
    destruct (Hgood ((val / 64) mod 64)) as [E2 P2]; [dlia |].
    rewrite E0, E1, E2, P2, is_pad_padChar.
    rewrite (Zbyte_eq _ a), (Zbyte_eq _ b);
      [reflexivity | subst val; dlia ..].
  - pose proof (byteZ_range a) as Ha. pose proof (byteZ_range b) as Hb.
    pose proof (byteZ_range c) as Hc.
    cbn [Encode DecodeQuanta].
    rewrite !sextet_div by lia. rewrite group3 by assumption.
    change (2 ^ 6) with 64. change (2 ^ 18) with 262144. change (2 ^ 12) with 4096.
    change (2 ^ 0) with 1. rewrite Z.div_1_r.
    set (val := byteZ a * 65536 + byteZ b * 256 + byteZ c).
    destruct (Hgood ((val / 262144) mod 64)) as [E0 _]; [dlia |].
    destruct (Hgood ((val / 4096) mod 64)) as [E1 _]; [dlia |].
    destruct (Hgood ((val / 64) mod 64)) as [E2 P2]; [dlia |].
    destruct (Hgood (val mod 64)) as [E3 P3]; [dlia |].
    rewrite E0, E1, E2, E3.
    assert (Ev : (((val / 262144) mod 64 * 64 + (val / 4096) mod 64) * 64
                  + (val / 64) mod 64) * 64 + val mod 64 = val) by dlia.
    rewrite Ev.
    rewrite (Zbyte_eq (val / 65536) a), (Zbyte_eq ((val / 256) mod 256) b),
      (Zbyte_eq (val mod 256) c) by (subst val; dlia).
    destruct (Encode tab s) as [| e0 es] eqn:Eenc.
    + apply Encode_empty in Eenc. subst s. rewrite P3. reflexivity.
    + rewrite IH. reflexivity.
Qed.

Lemma tab_get_cases (tab : string) (i : Z) :
  tab_get tab i = padChar \/ Multipart.string_mem (tab_get tab i) tab = true.
Proof.
  unfold tab_get. generalize (Z.to_nat i) as n.
  induction tab as [| d tab IH]; intros n; [left; reflexivity |].
  destruct n as [| n]; cbn [String.get Multipart.string_mem].
  - right. now rewrite Ascii.eqb_refl.
  - destruct (IH n) as [E | E]; [left; exact E | right].
    rewrite E. apply orb_true_r.
Qed.

Lemma string_mem_forall (p : ascii -> bool) (c : ascii) (tab : string) :
  Multipart.string_mem c tab = true -> string_forall p tab = true -> p c = true.
Proof.
  induction tab as [| d tab IH];
    cbn [Multipart.string_mem string_forall]; [discriminate |].
  intros Hmem Hall. apply andb_true_iff in Hall as [Hd Hall].
  apply orb_true_iff in Hmem as [Hc | Hmem]; [| now apply IH].
  apply Ascii.eqb_eq in Hc. now subst d.
Qed.

(** A table without line breaks writes none, so the decoder has nothing to
    skip in what the encoder wrote. *)
Lemma tab_get_no_newline (tab : string) (i : Z) :
  string_forall (fun c => negb (is_newline c)) tab = true ->
  is_newline (tab_get tab i) = false.
Proof.
  intros Htab. destruct (tab_get_cases tab i) as [E | E].
  - rewrite E. reflexivity.
  - apply negb_true_iff.
    exact (string_mem_forall (fun c => negb (is_newline c)) _ _ E Htab).
Qed.

Lemma skipNewlines_Encode (tab s : string) :
  string_forall (fun c => negb (is_newline c)) tab = true ->
  skipNewlines (Encode tab s) = Encode tab s.
Proof.
  intros Htab.
  assert (Hpad : is_newline padChar = false) by reflexivity.
  induction s as [| a | a b | a b c s IH] using string_ind_by3.
  - reflexivity.
  - cbn [Encode skipNewlines].
    rewrite !(tab_get_no_newline tab _ Htab), Hpad. reflexivity.
  - cbn [Encode skipNewlines].
    rewrite !(tab_get_no_newline tab _ Htab), Hpad. reflexivity.
  - cbn [Encode skipNewlines].
    rewrite !(tab_get_no_newline tab _ Htab), IH. reflexivity.
Qed.

Lemma Decode_Encode (tab s : string) :
  goodTable tab ->
  string_forall (fun c => negb (is_newline c)) tab = true ->
  Decode tab (Encode tab s) = Some s.
Proof.
  intros Hgood Htab. unfold Decode.
  rewrite skipNewlines_Encode by assumption.
  now apply DecodeQuanta_Encode.
Qed.

(** Line breaks in the text do not change what it decodes to; any other
    character outside the table is refused. *)
Lemma Decode_skips_line_breaks :
  URLDecodeString ("SGVs" +:+ String "013" (String "010" "bG8=")) = Some "Hello"
  /\ URLDecodeString (String "010" "SGVsbG8" +:+ String "010" "=" +:+ String "013" EmptyString)
     = Some "Hello"
  /\ URLDecodeString "SGVs bG8=" = None
  /\ URLDecodeString "SGVsbG8" = None.
Proof. repeat split; vm_compute; reflexivity. Qed.

End Base64Facts.

(** ** Strings and formats *)

Lemma append_assoc (s1 s2 s3 : string) : (s1 +:+ s2) +:+ s3 = s1 +:+ s2 +:+ s3.
Proof.
  induction s1 as [| c s1 IH]; [reflexivity |].
  change (String c ((s1 +:+ s2) +:+ s3) = String c (s1 +:+ s2 +:+ s3)).
  now rewrite IH.
Qed.

Lemma append_empty_r (s : string) : s +:+ EmptyString = s.
Proof.
  induction s as [| c s IH]; [reflexivity |].
  change (String c (s +:+ EmptyString) = String c s). now rewrite IH.
Qed.

Section ForwardFacts.
Import Multipart Forward.

Lemma Sprintf_forwardBody (original : MessagePart) :
  Sprintf forwardFormat
    [AStr (headerValue original "From"); AStr (headerValue original "Date");
     AStr (headerValue original "Subject"); AStr (headerValue original "To");
     AStr (fst (bestBodyForDisplay original))]
  = preamble original.
Proof.
  rewrite <- (append_empty_r (preamble original)).
  unfold preamble. rewrite !append_assoc. reflexivity.
Qed.

Lemma textHeader_lines :
  headerLines (Header_Set ∅ "Content-Type" "text/plain; charset=utf-8")
  = "Content-Type: text/plain; charset=utf-8" +:+ CRLF.
Proof. vm_compute. reflexivity. Qed.

Lemma attachmentHeader_lines (ct cd : string) :
  headerLines
    (Header_Set
       (Header_Set (Header_Set ∅ "Content-Type" ct) "Content-Disposition" cd)
       "Content-Transfer-Encoding" "base64")
  = "Content-Disposition: " +:+ cd +:+ CRLF
    +:+ "Content-Transfer-Encoding: base64" +:+ CRLF
    +:+ "Content-Type: " +:+ ct +:+ CRLF.
Proof. vm_compute. reflexivity. Qed.

Lemma Sprintf_disposition (filename : string) :
  Sprintf ("attachment; filename=" +:+ QUOTE +:+ "%s" +:+ QUOTE) [AStr filename]
  = "attachment; filename=" +:+ QUOTE +:+ filename +:+ QUOTE.
Proof. reflexivity. Qed.

Lemma Sprintf_warning (att : attachmentInfo) (err : error) :
  Sprintf "Warning: failed to attach %s: %v" [AStr (Filename att); AErr err]
  = warning att err.
Proof.
  unfold warning. rewrite <- (append_empty_r (Error err)). reflexivity.
Qed.

Lemma Sprintf_contentType (b : string) :
  Sprintf ("multipart/mixed; boundary=" +:+ QUOTE +:+ "%s" +:+ QUOTE) [AStr b]
  = multipartType b.
Proof. reflexivity. Qed.

Lemma Sprintf_headers (to subject contentType rest : string) :
  Sprintf ("To: %s" +:+ CRLF) [AStr to]
  +:+ Sprintf ("Subject: %s" +:+ CRLF) [AStr subject]
  +:+ Sprintf ("Content-Type: %s" +:+ CRLF) [AStr contentType]
  +:+ rest
  = headerBlock to subject contentType +:+ rest.
Proof.
  unfold headerBlock.
  change (Sprintf ("To: %s" +:+ CRLF) [AStr to]) with ("To: " +:+ to +:+ CRLF).
  change (Sprintf ("Subject: %s" +:+ CRLF) [AStr subject])
    with ("Subject: " +:+ subject +:+ CRLF).
  change (Sprintf ("Content-Type: %s" +:+ CRLF) [AStr contentType])
    with ("Content-Type: " +:+ contentType +:+ CRLF).
  rewrite !append_assoc. reflexivity.
Qed.

(** One attachment: fetched and decoded, its part goes into the writer;
    otherwise the error comes back and the writer is as before. *)
Lemma addAttachment_spec pkg svc (w : Writer) messageID att :
  lastpart w = true ->
  addAttachmentToMultipart pkg svc w messageID att
  = ([EvAttachmentsGet "me" messageID (AttachmentID att)],
     match fetchAttachment pkg svc messageID att with
     | Ok data =>
         Ok {| boundary := boundary w;
               buf := buf w +:+ laterParts (boundary w) [attachmentPart att data];
               lastpart := true |}
     | Err e => Err e
     end).
Proof.
  intros Hlast.
  unfold addAttachmentToMultipart, fetchAttachment.
  destruct (Users_Messages_Attachments_Get svc "me" messageID (AttachmentID att))
    as [attachData | e]; [| reflexivity].
  cbn [wrapErr call bind].
  destruct (decodeBase64URLBytes pkg (Data attachData)) as [data | e];
    [| reflexivity].
  cbn [wrapErr lift bind ret app].
  f_equal. f_equal.
  unfold Write, CreatePart. cbn [boundary buf lastpart].
  rewrite Hlast, attachmentHeader_lines, Sprintf_disposition.
  f_equal.
  unfold laterParts, partText, attachmentPart. cbn [partHeaders partBody fold_right fst snd].
  rewrite !append_assoc. rewrite append_empty_r. reflexivity.
Qed.

Lemma laterParts_app (b : string) (ps qs : list mimePart) :
  laterParts b (ps ++ qs) = laterParts b ps +:+ laterParts b qs.
Proof.
  induction ps as [| p ps IH]; [reflexivity |].
  cbn [laterParts app]. rewrite IH, !append_assoc. reflexivity.
Qed.

Lemma attachAll_spec pkg svc messageID attachments : forall (w : Writer),
  lastpart w = true ->
  attachAll pkg svc messageID attachments w
  = (attachEvents pkg svc messageID attachments,
     Ok {| boundary := boundary w;
           buf := buf w +:+ laterParts (boundary w)
                              (embeddedParts pkg svc messageID attachments);
           lastpart := true |}).
Proof.
  induction attachments as [| att rest IH]; intros w Hlast.
  - cbn. rewrite append_empty_r. destruct w; cbn in *; subst; reflexivity.
  - cbn [attachAll]. rewrite addAttachment_spec by assumption.
    unfold embeddedParts, embedded, attachEvents.
    cbn [omap list_omap flat_map].
    fold (embedded pkg svc messageID rest).
    fold (attachEvents pkg svc messageID rest).
    destruct (fetchAttachment pkg svc messageID att) as [data | e].
    + cbn [attempt bind fst snd].
      rewrite IH by reflexivity. cbn [boundary buf].
      cbn [map fst snd]. fold (embeddedParts pkg svc messageID rest).
      change (attachmentPart att data :: embeddedParts pkg svc messageID rest)
        with ([attachmentPart att data] ++ embeddedParts pkg svc messageID rest)%list.
      rewrite laterParts_app, append_assoc. reflexivity.
    + cbn [attempt bind fst snd emit].
      rewrite Sprintf_warning. rewrite IH by assumption. reflexivity.
Qed.

End ForwardFacts.

(** ** The forward command *)

Section ForwardRun.
Import Multipart Forward.

Lemma eqb_empty_false (s : string) :
  s <> EmptyString -> String.eqb s EmptyString = false.
Proof. intros H. now apply String.eqb_neq. Qed.

(** The run of [Forward.Run] once the account, the validation, the service
    and the fetch of the original are through: the fetches of the
    attachment loop, then the send of the composed message, then the
    result line. *)
Lemma Forward_Run_spec pkg ctx rnd c flags account svc original :
  requireAccount pkg flags = Ok account ->
  TrimSpace (MessageID c) <> EmptyString ->
  TrimSpace (To c) <> EmptyString ->
  newGmailService pkg account = Ok svc ->
  Users_Messages_Get svc "me" (TrimSpace (MessageID c)) "full" = Ok original ->
  Forward.Run pkg ctx rnd c flags
  = let messageID := TrimSpace (MessageID c) in
    let attachments := collectAttachments pkg (Payload original) in
    let msg := sendRequest
                 (encodeWeb64 (composedMessage pkg svc rnd c (Payload original))) in
    let calls :=
      (EvNewService account :: EvMessagesGet "me" messageID "full"
       :: attachEvents pkg svc messageID attachments
       ++ [EvMessagesSend "me" msg])%list in
    match Users_Messages_Send svc "me" msg with
    | Ok sent =>
        ((calls ++ [forwardReport ctx messageID (TrimSpace (To c))
                     (composedSubject (Subject c)
                        (headerValue (Payload original) "Subject"))
                     (length attachments) sent])%list, Ok tt)
    | Err e => (calls, Err (Errorf_w "sending forwarded message" e))
    end.
Proof.
  intros Hacc Hid Hto Hsvc Hget.
  unfold Forward.Run.
  rewrite Hacc. cbn [lift bind].
  rewrite (eqb_empty_false _ Hid), (eqb_empty_false _ Hto).
  rewrite Hsvc. cbn [call bind].
  rewrite Hget. cbn [wrapErr bind].
  rewrite attachAll_spec by reflexivity.
  cbn [bind].
  rewrite Sprintf_forwardBody, Sprintf_contentType.
  cbn [Close Write CreatePart NewWriter boundary buf lastpart Boundary].
  rewrite textHeader_lines.
  rewrite Sprintf_headers, !append_assoc.
  fold (composedSubject (Subject c) (headerValue (Payload original) "Subject")).
  assert (Eraw :
    headerBlock (TrimSpace (To c))
      (composedSubject (Subject c) (headerValue (Payload original) "Subject"))
      (multipartType (randomBoundary rnd))
    +:+ CRLF
    +:+ EmptyString +:+ "--" +:+ randomBoundary rnd +:+ CRLF
    +:+ "Content-Type: text/plain; charset=utf-8" +:+ CRLF +:+ CRLF
    +:+ preamble (Payload original)
    +:+ laterParts (randomBoundary rnd)
          (embeddedParts pkg svc (TrimSpace (MessageID c))
             (collectAttachments pkg (Payload original)))
    +:+ CRLF +:+ "--" +:+ randomBoundary rnd +:+ "--" +:+ CRLF
    = composedMessage pkg svc rnd c (Payload original)).
  { unfold composedMessage, multipartBody, partText, textPart.
    cbn [partHeaders partBody fold_right fst snd].
    rewrite !append_assoc. reflexivity. }
  rewrite Eraw.
  fold (sendRequest (encodeWeb64 (composedMessage pkg svc rnd c (Payload original)))).
  cbv zeta.
  destruct (Users_Messages_Send svc "me"
              (sendRequest (encodeWeb64 (composedMessage pkg svc rnd c (Payload original)))))
    as [sent | e].
  - cbn [wrapErr call bind]. unfold forwardReport.
    destruct (IsJSON ctx); cbn [emit app]; rewrite <- ?app_assoc; reflexivity.
  - cbn [wrapErr call bind app]. rewrite <- ?app_assoc. reflexivity.
Qed.
End ForwardRun.

Lemma sentMessages_app (l1 l2 : list event) :
  sentMessages (l1 ++ l2) = (sentMessages l1 ++ sentMessages l2)%list.
Proof. apply omap_app. Qed.


Lemma warnings_app (l1 l2 : list event) :
  warnings (l1 ++ l2) = (warnings l1 ++ warnings l2)%list.
Proof. apply omap_app. Qed.

Section ForwardLog.
Import Multipart.
Context (pkg : Package) (svc : Service) (messageID : string).

Lemma sent_attachEvents attachments :
  sentMessages (attachEvents pkg svc messageID attachments) = [].
Proof.
  induction attachments as [| att rest IH]; [reflexivity |].
  unfold attachEvents, sentMessages in *. cbn [flat_map].
  rewrite omap_app, IH.
  destruct (fetchAttachment pkg svc messageID att); reflexivity.
Qed.


Lemma warnings_attachEvents attachments :
  warnings (attachEvents pkg svc messageID attachments)
  = failedWarnings pkg svc messageID attachments.
Proof.
  induction attachments as [| att rest IH]; [reflexivity |].
  unfold attachEvents, warnings, failedWarnings in *.
  cbn [flat_map omap list_omap].
  rewrite omap_app, IH.
  destruct (fetchAttachment pkg svc messageID att); reflexivity.
Qed.

End ForwardLog.

Section TransportFacts.
Import Base64 Multipart.

Lemma sextet_range (val k : Z) : 0 <= k -> 0 <= sextet val k < 64.
Proof. intros Hk. rewrite sextet_div by assumption. dlia. Qed.

Lemma url_safe_tab (i : Z) : 0 <= i < 64 -> url_safe_char (tab_get encodeURL i) = true.
Proof.
  intros Hi. unfold url_safe_char.
  destruct (encodeURL_good i Hi) as [E _]. now rewrite E.
Qed.

(** What [encodeWeb64] writes is URL-safe text. *)
Lemma URLEncode_url_safe (s : string) :
  string_forall url_safe_char (URLEncodeToString s) = true.
Proof.
  unfold URLEncodeToString.
  induction s as [| a | a b | a b c s IH] using string_ind_by3.
  - reflexivity.
  - cbn [Encode string_forall].
    rewrite !url_safe_tab by (apply sextet_range; lia). reflexivity.
  - cbn [Encode string_forall].
    rewrite !url_safe_tab by (apply sextet_range; lia). reflexivity.
  - cbn [Encode string_forall].
    rewrite !url_safe_tab by (apply sextet_range; lia). rewrite IH. reflexivity.
Qed.

Lemma encodeWeb64_decodes (s : string) : URLDecodeString (encodeWeb64 s) = Some s.
Proof. apply Decode_Encode; [apply encodeURL_good | reflexivity]. Qed.

Lemma hexdigit_not_quote (n : N) : Ascii.eqb (hexdigit n) DQUOTE = false.
Proof.
  unfold hexdigit.
  destruct (tab_get_cases "0123456789abcdef" (Z.of_N n)) as [E | E].
  - rewrite E. reflexivity.
  - apply negb_true_iff.
    apply (string_mem_forall (fun c => negb (Ascii.eqb c DQUOTE)) _ _ E).
    reflexivity.
Qed.

Lemma untilQuote_hex (rnd rest : string) :
  untilQuote (hex rnd +:+ String DQUOTE rest) = Some (hex rnd).
Proof.
  induction rnd as [| c rnd IH]; [reflexivity |].
  cbn [hex].
  change (untilQuote
            (String (hexdigit (N.shiftr (N_of_ascii c) 4))
               (String (hexdigit (N.land (N_of_ascii c) 15))
                  (hex rnd +:+ String DQUOTE rest)))
          = Some (String (hexdigit (N.shiftr (N_of_ascii c) 4))
                    (String (hexdigit (N.land (N_of_ascii c) 15)) (hex rnd)))).
  cbn [untilQuote]. rewrite !hexdigit_not_quote, IH. reflexivity.
Qed.

(** The Content-Type value of a composed message declares the boundary of
    its writer. *)
Lemma declaredBoundary_multipartType (rnd : string) :
  declaredBoundary (multipartType (randomBoundary rnd)) = Some (randomBoundary rnd).
Proof.
  unfold randomBoundary.
  change (declaredBoundary (multipartType (hex rnd)))
    with (untilQuote (hex rnd +:+ String DQUOTE EmptyString)).
  apply untilQuote_hex.
Qed.

End TransportFacts.

Section ForwardClaims.
Import Multipart.
Context (pkg : Package) (ctx : Context) (rnd : string)
        (c : GmailMessagesForwardCmd) (flags : RootFlags).

(** The composed message goes out exactly once, the remote side's answer
    to the send put aside. *)
Lemma Forward_sends account svc original :
  reachesComposer pkg flags c account svc original ->
  sentMessages (log (Forward.Run pkg ctx rnd c flags))
  = [sendRequest (encodeWeb64 (composedMessage pkg svc rnd c (Payload original)))].
Proof.
  intros (Hacc & Hid & Hto & Hsvc & Hget).
  rewrite (Forward_Run_spec _ _ _ _ _ _ _ _ Hacc Hid Hto Hsvc Hget).
  cbv zeta.
  destruct (Users_Messages_Send svc "me" _) as [sent | e]; unfold log; cbn [fst].
  - change (sentMessages
              (([EvNewService account;
                 EvMessagesGet "me" (TrimSpace (MessageID c)) "full"]
                ++ attachEvents pkg svc (TrimSpace (MessageID c))
                     (collectAttachments pkg (Payload original))
                ++ [EvMessagesSend "me"
                      (sendRequest
                         (encodeWeb64
                            (composedMessage pkg svc rnd c (Payload original))))])
               ++ [forwardReport ctx (TrimSpace (MessageID c)) (TrimSpace (To c))
                     (composedSubject (Subject c)
                        (headerValue (Payload original) "Subject"))
                     (length (collectAttachments pkg (Payload original))) sent])
            = [sendRequest
                 (encodeWeb64 (composedMessage pkg svc rnd c (Payload original)))]).
    rewrite !sentMessages_app, sent_attachEvents.
    unfold forwardReport. destruct (IsJSON ctx); reflexivity.
  - change (sentMessages
              ([EvNewService account;
                EvMessagesGet "me" (TrimSpace (MessageID c)) "full"]
               ++ attachEvents pkg svc (TrimSpace (MessageID c))
                    (collectAttachments pkg (Payload original))
               ++ [EvMessagesSend "me"
                     (sendRequest
                        (encodeWeb64
                           (composedMessage pkg svc rnd c (Payload original))))])
            = [sendRequest
                 (encodeWeb64 (composedMessage pkg svc rnd c (Payload original)))]).
    rewrite !sentMessages_app, sent_attachEvents. reflexivity.
Qed.

Lemma Forward_success account svc original sent :
  reachesComposer pkg flags c account svc original ->
  Users_Messages_Send svc "me"
    (sendRequest (encodeWeb64 (composedMessage pkg svc rnd c (Payload original))))
  = Ok sent ->
  Forward.Run pkg ctx rnd c flags
  = (([EvNewService account;
        EvMessagesGet "me" (TrimSpace (MessageID c)) "full"]
      ++ attachEvents pkg svc (TrimSpace (MessageID c))
           (collectAttachments pkg (Payload original))
      ++ [EvMessagesSend "me"
            (sendRequest
               (encodeWeb64 (composedMessage pkg svc rnd c (Payload original))));
          forwardReport ctx (TrimSpace (MessageID c)) (TrimSpace (To c))
            (composedSubject (Subject c) (headerValue (Payload original) "Subject"))
            (length (collectAttachments pkg (Payload original))) sent])%list,
     Ok tt).
Proof.
  intros (Hacc & Hid & Hto & Hsvc & Hget) Hsend.
  rewrite (Forward_Run_spec _ _ _ _ _ _ _ _ Hacc Hid Hto Hsvc Hget).
  cbv zeta. rewrite Hsend. cbn [app]. rewrite <- app_assoc. reflexivity.
Qed.

Lemma Forward_rejects :
  TrimSpace (MessageID c) = EmptyString \/ TrimSpace (To c) = EmptyString ->
  Forward.Run pkg ctx rnd c flags
  = ([], match requireAccount pkg flags with
         | Err e => Err e
         | Ok _ =>
             Err (usage (if String.eqb (TrimSpace (MessageID c)) EmptyString
                         then "message ID is required" else "--to is required"))
         end).
Proof.
  intros H. unfold Forward.Run.
  destruct (requireAccount pkg flags) as [account | e]; [| reflexivity].
  cbn [lift bind].
  destruct (String.eqb_spec (TrimSpace (MessageID c)) EmptyString) as [E | N];
    [reflexivity |].
  destruct H as [H | H]; [contradiction |].
  rewrite H. reflexivity.
Qed.

Lemma ForwardPlain_rejects :
  TrimSpace (MessageID c) = EmptyString \/ TrimSpace (To c) = EmptyString ->
  ForwardPlain.Run pkg ctx c flags
  = ([], match requireAccount pkg flags with
         | Err e => Err e
         | Ok _ =>
             Err (usage (if String.eqb (TrimSpace (MessageID c)) EmptyString
                         then "message ID is required" else "--to is required"))
         end).
Proof.
  intros H. unfold ForwardPlain.Run.
  destruct (requireAccount pkg flags) as [account | e]; [| reflexivity].
  cbn [lift bind].
  destruct (String.eqb_spec (TrimSpace (MessageID c)) EmptyString) as [E | N];
    [reflexivity |].
  destruct H as [H | H]; [contradiction |].
  rewrite H. reflexivity.
Qed.

(** The earlier revision, for comparison: one flat text/plain message,
    its header lines ended by LF. *)
Lemma ForwardPlain_sends account svc original :
  reachesComposer pkg flags c account svc original ->
  sentMessages (log (ForwardPlain.Run pkg ctx c flags))
  = [sendRequest
       (encodeWeb64
          ("To: " +:+ TrimSpace (To c) +:+ NL
           +:+ "Subject: "
           +:+ composedSubject (Subject c) (headerValue (Payload original) "Subject")
           +:+ NL
           +:+ "Content-Type: text/plain; charset=utf-8" +:+ NL
           +:+ NL
           +:+ preamble (Payload original)))].
Proof.
  intros (Hacc & Hid & Hto & Hsvc & Hget).
  unfold ForwardPlain.Run.
  rewrite Hacc. cbn [lift bind].
  rewrite (eqb_empty_false _ Hid), (eqb_empty_false _ Hto).
  rewrite Hsvc. cbn [call bind].
  rewrite Hget. cbn [wrapErr bind].
  rewrite Sprintf_forwardBody.
  fold (composedSubject (Subject c) (headerValue (Payload original) "Subject")).
  change (Sprintf ("To: %s" +:+ NL) [AStr (TrimSpace (To c))])
    with ("To: " +:+ TrimSpace (To c) +:+ NL).
  change (Sprintf ("Subject: %s" +:+ NL)
            [AStr (composedSubject (Subject c)
                     (headerValue (Payload original) "Subject"))])
    with ("Subject: "
          +:+ composedSubject (Subject c) (headerValue (Payload original) "Subject")
          +:+ NL).
  rewrite !append_assoc.
  destruct (Users_Messages_Send svc "me" _) as [sent | e];
    cbn [wrapErr call bind app log fst]; [| reflexivity].
  destruct (IsJSON ctx); reflexivity.
Qed.
(** C1, as amended.  With no attachment embedded (none collected, or every
    fetch or decode failed) the message sent is still multipart/mixed: the
    Content-Type header declares the boundary, and the body holds exactly
    one part, the text/plain part with the forward text, between the
    opening and the closing delimiter. *)
Theorem forward_without_attachments_is_multipart account svc original :
  reachesComposer pkg flags c account svc original ->
  embedded pkg svc (TrimSpace (MessageID c))
    (collectAttachments pkg (Payload original)) = [] ->
  let b := randomBoundary rnd in
  sentMessages (log (Forward.Run pkg ctx rnd c flags))
  = [sendRequest
       (encodeWeb64
          (headerBlock (TrimSpace (To c))
             (composedSubject (Subject c)
                (headerValue (Payload original) "Subject"))
             (multipartType b)
           +:+ CRLF
           +:+ "--" +:+ b +:+ CRLF
           +:+ "Content-Type: text/plain; charset=utf-8" +:+ CRLF +:+ CRLF
           +:+ preamble (Payload original)
           +:+ CRLF +:+ "--" +:+ b +:+ "--" +:+ CRLF))]
  /\ declaredBoundary (multipartType b) = Some b.
Proof.
  intros Hreach Hnone b. split; [| apply declaredBoundary_multipartType].
  rewrite (Forward_sends _ _ _ Hreach).
  unfold composedMessage, embeddedParts. rewrite Hnone.
  unfold multipartBody, partText, textPart.
  cbn [map laterParts partHeaders partBody fold_right fst snd].
  rewrite !append_assoc. reflexivity.
Qed.


(** C7.  The composed subject is the override when there is one, and
    "Fwd: " followed by the original Subject otherwise.  It is the subject
    of the header block of the message sent and of the result; the header
    block takes nothing else from the original, whose subject is quoted on
    the Subject line of the preamble, inside the text part. *)
Theorem forward_subject account svc original sent :
  reachesComposer pkg flags c account svc original ->
  Users_Messages_Send svc "me"
    (sendRequest (encodeWeb64 (composedMessage pkg svc rnd c (Payload original))))
  = Ok sent ->
  let originalSubject := headerValue (Payload original) "Subject" in
  let b := randomBoundary rnd in
  exists subject before after,
    (Subject c <> EmptyString -> subject = Subject c)
    /\ (Subject c = EmptyString -> subject = "Fwd: " +:+ originalSubject)
    /\ sentMessages (log (Forward.Run pkg ctx rnd c flags))
       = [sendRequest
            (encodeWeb64
               (headerBlock (TrimSpace (To c)) subject (multipartType b)
                +:+ CRLF
                +:+ multipartBody b (textPart (preamble (Payload original)))
                      (embeddedParts pkg svc (TrimSpace (MessageID c))
                         (collectAttachments pkg (Payload original)))))]
    /\ last (log (Forward.Run pkg ctx rnd c flags))
       = Some (forwardReport ctx (TrimSpace (MessageID c)) (TrimSpace (To c))
                 subject (length (collectAttachments pkg (Payload original)))
                 sent)
    /\ preamble (Payload original)
       = before +:+ "Subject: " +:+ originalSubject +:+ NL +:+ after.
Proof.
  intros Hreach Hsend originalSubject b.
  exists (composedSubject (Subject c) originalSubject).
  exists ("---------- Forwarded message ----------" +:+ NL
          +:+ "From: " +:+ headerValue (Payload original) "From" +:+ NL
          +:+ "Date: " +:+ headerValue (Payload original) "Date" +:+ NL).
  exists ("To: " +:+ headerValue (Payload original) "To" +:+ NL +:+ NL
          +:+ fst (bestBodyForDisplay (Payload original))).
  split; [| split; [| split; [| split]]].
  - intros Hne. unfold composedSubject.
    now rewrite (eqb_empty_false _ Hne).
  - intros ->. reflexivity.
  - apply (Forward_sends _ _ _ Hreach).
  - rewrite (Forward_success _ _ _ _ Hreach Hsend). unfold log. cbn [fst].
    rewrite !app_assoc.
    change [EvMessagesSend "me"
              (sendRequest
                 (encodeWeb64 (composedMessage pkg svc rnd c (Payload original))));
            forwardReport ctx (TrimSpace (MessageID c)) (TrimSpace (To c))
              (composedSubject (Subject c) (headerValue (Payload original) "Subject"))
              (length (collectAttachments pkg (Payload original))) sent]
      with ([EvMessagesSend "me"
               (sendRequest
                  (encodeWeb64 (composedMessage pkg svc rnd c (Payload original))))]
            ++ [forwardReport ctx (TrimSpace (MessageID c)) (TrimSpace (To c))
                  (composedSubject (Subject c)
                     (headerValue (Payload original) "Subject"))
                  (length (collectAttachments pkg (Payload original))) sent])%list.
    rewrite app_assoc. apply last_snoc.
  - unfold preamble. rewrite !append_assoc. reflexivity.
Qed.

(** C8.  The boundary that the Content-Type header of the message
    declares is the very string that delimits the parts of its body: the
    text part and one part per embedded attachment, each introduced by
    two hyphens and that boundary, the last one closed by it. *)
Theorem declared_boundary_delimits_parts account svc original :
  reachesComposer pkg flags c account svc original ->
  exists contentType b,
    sentMessages (log (Forward.Run pkg ctx rnd c flags))
    = [sendRequest
         (encodeWeb64
            (headerBlock (TrimSpace (To c))
               (composedSubject (Subject c)
                  (headerValue (Payload original) "Subject"))
               contentType
             +:+ CRLF
             +:+ multipartBody b (textPart (preamble (Payload original)))
                   (embeddedParts pkg svc (TrimSpace (MessageID c))
                      (collectAttachments pkg (Payload original)))))]
    /\ declaredBoundary contentType = Some b
    /\ b = Boundary (NewWriter rnd).
Proof.
  intros Hreach.
  exists (multipartType (randomBoundary rnd)), (randomBoundary rnd).
  split; [apply (Forward_sends _ _ _ Hreach) |].
  split; [apply declaredBoundary_multipartType | reflexivity].
Qed.

(** C9.  When the message ID or the recipient is empty once trimmed, both
    revisions of the forward command stop with an error before anything
    else happens: the log is empty (no service is built, nothing is
    fetched or sent), and the error is the usage error of the failed check
    (or the error of the account lookup, which comes first). *)
Theorem forward_validation_comes_first :
  TrimSpace (MessageID c) = EmptyString \/ TrimSpace (To c) = EmptyString ->
  let verdict : result unit :=
    match requireAccount pkg flags with
    | Err e => Err e
    | Ok _ =>
        Err (usage (if String.eqb (TrimSpace (MessageID c)) EmptyString
                    then "message ID is required" else "--to is required"))
    end in
  (log (Forward.Run pkg ctx rnd c flags) = []
   /\ outcome (Forward.Run pkg ctx rnd c flags) = verdict)
  /\ (log (ForwardPlain.Run pkg ctx c flags) = []
      /\ outcome (ForwardPlain.Run pkg ctx c flags) = verdict).
Proof.
  intros H verdict.
  rewrite (Forward_rejects H), (ForwardPlain_rejects H).
  repeat split.
Qed.

End ForwardClaims.

(** ** The claims on the sample environment *)

Lemma forward_without_attachments_is_multipart_witness :
  let b := Multipart.randomBoundary Sample.rnd in
  sentMessages
    (log (Forward.Run (Sample.package [Sample.report] ["att-1"]) Sample.json
            Sample.rnd Sample.forward Sample.flags))
  = [sendRequest
       (encodeWeb64
          (headerBlock (TrimSpace (To Sample.forward))
             (composedSubject (Subject Sample.forward)
                (headerValue (Payload Sample.original) "Subject"))
             (multipartType b)
           +:+ CRLF
           +:+ "--" +:+ b +:+ CRLF
           +:+ "Content-Type: text/plain; charset=utf-8" +:+ CRLF +:+ CRLF
           +:+ preamble (Payload Sample.original)
           +:+ CRLF +:+ "--" +:+ b +:+ "--" +:+ CRLF))]
  /\ declaredBoundary (multipartType b) = Some b.
Proof.
  apply (forward_without_attachments_is_multipart
           (Sample.package [Sample.report] ["att-1"]) Sample.json Sample.rnd
           Sample.forward Sample.flags "a@b.com" (Sample.service ["att-1"])
           Sample.original).
  - repeat split; vm_compute; congruence.
  - vm_compute. reflexivity.
Defined.

(** C1, as stated, fails: a forward of a message without attachment parts
    does not send a flat text/plain message; the Content-Type header of
    what it sends is multipart/mixed and declares a boundary. *)
Lemma forward_without_attachments_not_flat :
  let pkg := Sample.package [] [] in
  let run := Forward.Run pkg Sample.json Sample.rnd Sample.forward Sample.flags in
  embedded pkg (Sample.service []) "m1" (collectAttachments pkg (Payload Sample.original))
  = []
  /\ sentMessages (log run)
     <> [sendRequest
           (encodeWeb64
              (flatMessage "recipient@example.com" "Fwd: Original Subject"
                 (preamble (Payload Sample.original))))]
  /\ exists msg raw,
       sentMessages (log run) = [msg]
       /\ Base64.URLDecodeString (Raw msg) = Some raw
       /\ headerField "Content-Type" raw
          = Some ("multipart/mixed; boundary=" +:+ QUOTE
                  +:+ "0102030405060708090a0b0c0d0e0f101112131415161718191a1b1c1d1e"
                  +:+ QUOTE)
       /\ declaredBoundary raw
          = Some "0102030405060708090a0b0c0d0e0f101112131415161718191a1b1c1d1e".
Proof.
  split; [reflexivity |].
  split; [vm_compute; discriminate |].
  eexists. eexists.
  split; [vm_compute; reflexivity |].
  split; [vm_compute; reflexivity |].
  split; vm_compute; reflexivity.
Qed.

(** C2 on a concrete run: of two collected attachments one cannot be
    fetched, only the other is embedded, and the result still counts two,
    in the JSON object and on the success line alike. *)
Lemma forward_counts_failed_attachment :
  let pkg := Sample.package [Sample.report; Sample.photo] ["att-2"] in
  let jsonRun := Forward.Run pkg Sample.json Sample.rnd Sample.forward Sample.flags in
  let humanRun := Forward.Run pkg Sample.human Sample.rnd Sample.forward Sample.flags in
  map fst (embedded pkg (Sample.service ["att-2"]) "m1" [Sample.report; Sample.photo])
  = [Sample.report]
  /\ outcome jsonRun = Ok tt
  /\ warnings (log jsonRun)
     = ["Warning: failed to attach photo.png: fetching attachment: 503 backend error"]
  /\ (exists obj, jsonResults (log jsonRun) = [obj]
                  /\ obj !! "attachments" = Some (VInt 2))
  /\ outLines (log humanRun)
     = ["Forwarded message m1 to recipient@example.com with 2 attachment(s) (sent: sent123)"].
Proof.
  split; [vm_compute; reflexivity |].
  split; [vm_compute; reflexivity |].
  split; [vm_compute; reflexivity |].
  split; [| vm_compute; reflexivity].
  eexists. split; [vm_compute; reflexivity |]. vm_compute. reflexivity.
Qed.



Lemma forward_subject_witness :
  let pkg := Sample.package [Sample.report] [] in
  let svc := Sample.service [] in
  let c := Sample.forwardCustom in
  let originalSubject := headerValue (Payload Sample.original) "Subject" in
  let b := Multipart.randomBoundary Sample.rnd in
  exists subject before after,
    (Subject c <> EmptyString -> subject = Subject c)
    /\ (Subject c = EmptyString -> subject = "Fwd: " +:+ originalSubject)
    /\ sentMessages (log (Forward.Run pkg Sample.json Sample.rnd c Sample.flags))
       = [sendRequest
            (encodeWeb64
               (headerBlock (TrimSpace (To c)) subject (multipartType b)
                +:+ CRLF
                +:+ multipartBody b (textPart (preamble (Payload Sample.original)))
                      (embeddedParts pkg svc (TrimSpace (MessageID c))
                         (collectAttachments pkg (Payload Sample.original)))))]
    /\ last (log (Forward.Run pkg Sample.json Sample.rnd c Sample.flags))
       = Some (forwardReport Sample.json (TrimSpace (MessageID c)) (TrimSpace (To c))
                 subject
                 (length (collectAttachments pkg (Payload Sample.original)))
                 Sample.sentAnswer)
    /\ preamble (Payload Sample.original)
       = before +:+ "Subject: " +:+ originalSubject +:+ NL +:+ after.
Proof.
  apply (forward_subject
           (Sample.package [Sample.report] []) Sample.json Sample.rnd
           Sample.forwardCustom Sample.flags "a@b.com" (Sample.service [])
           Sample.original Sample.sentAnswer).
  - repeat split; vm_compute; congruence.
  - reflexivity.
Defined.

Lemma declared_boundary_delimits_parts_witness :
  let pkg := Sample.package [Sample.report; Sample.photo] [] in
  let c := Sample.forward in
  exists contentType b,
    sentMessages (log (Forward.Run pkg Sample.json Sample.rnd c Sample.flags))
    = [sendRequest
         (encodeWeb64
            (headerBlock (TrimSpace (To c))
               (composedSubject (Subject c)
                  (headerValue (Payload Sample.original) "Subject"))
               contentType
             +:+ CRLF
             +:+ multipartBody b (textPart (preamble (Payload Sample.original)))
                   (embeddedParts pkg (Sample.service []) (TrimSpace (MessageID c))
                      (collectAttachments pkg (Payload Sample.original)))))]
    /\ declaredBoundary contentType = Some b
    /\ b = Multipart.Boundary (Multipart.NewWriter Sample.rnd).
Proof.
  apply (declared_boundary_delimits_parts
           (Sample.package [Sample.report; Sample.photo] []) Sample.json
           Sample.rnd Sample.forward Sample.flags "a@b.com" (Sample.service [])
           Sample.original).
  repeat split; vm_compute; congruence.
Defined.

Lemma forward_validation_comes_first_witness :
  let pkg := Sample.package [Sample.report] [] in
  let c := Sample.forwardNoRecipient in
  let verdict : result unit :=
    match requireAccount pkg Sample.flags with
    | Err e => Err e
    | Ok _ =>
        Err (usage (if String.eqb (TrimSpace (MessageID c)) EmptyString
                    then "message ID is required" else "--to is required"))
    end in
  (log (Forward.Run pkg Sample.json Sample.rnd c Sample.flags) = []
   /\ outcome (Forward.Run pkg Sample.json Sample.rnd c Sample.flags) = verdict)
  /\ (log (ForwardPlain.Run pkg Sample.json c Sample.flags) = []
      /\ outcome (ForwardPlain.Run pkg Sample.json c Sample.flags) = verdict).
Proof.
  apply (forward_validation_comes_first
           (Sample.package [Sample.report] []) Sample.json Sample.rnd
           Sample.forwardNoRecipient Sample.flags).
  right. vm_compute. reflexivity.
Defined.


(** ** The modify command *)

Section ArchiveMerge.
Import Modify.

Lemma hasInbox_elem_of (removeIDs : list string) :
  hasInbox removeIDs = true <-> "INBOX" ∈ removeIDs.
Proof.
  induction removeIDs as [| id rest IH]; cbn [hasInbox].
  - split; [discriminate | intros H; inversion H].
  - destruct (String.eqb_spec id "INBOX") as [-> | Hne].
    + split; [intros _; left | reflexivity].
    + rewrite IH. split; [intros H; now right |].
      intros H. apply elem_of_cons in H as [H | H]; [congruence | exact H].
Qed.

Lemma occurrences_cons (x y : string) (l : list string) :
  occurrences x (y :: l)
  = ((if decide (y = x) then 1 else 0) + occurrences x l)%nat.
Proof.
  unfold occurrences. rewrite filter_cons. destruct (decide (y = x)); reflexivity.
Qed.

Lemma occurrences_app (x : string) (l1 l2 : list string) :
  occurrences x (l1 ++ l2) = (occurrences x l1 + occurrences x l2)%nat.
Proof. unfold occurrences. now rewrite filter_app, length_app. Qed.

Lemma hasInbox_occurrences (removeIDs : list string) :
  hasInbox removeIDs = false <-> occurrences "INBOX" removeIDs = 0%nat.
Proof.
  induction removeIDs as [| id rest IH]; cbn [hasInbox]; [easy |].
  rewrite occurrences_cons.
  destruct (String.eqb_spec id "INBOX") as [-> | Hne].
  - rewrite decide_True by reflexivity. split; [discriminate | lia].
  - rewrite decide_False by assumption. rewrite IH. lia.
Qed.

(** The merge never leaves the list without INBOX and never adds a second
    copy. *)
Lemma archiveMerge_occurrences (removeIDs : list string) :
  occurrences "INBOX" (archiveMerge true removeIDs)
  = Nat.max 1 (occurrences "INBOX" removeIDs).
Proof.
  unfold archiveMerge.
  destruct (hasInbox removeIDs) eqn:E; cbn [negb].
  - assert (occurrences "INBOX" removeIDs <> 0%nat) as H.
    { intros H0. apply hasInbox_occurrences in H0. congruence. }
    lia.
  - apply hasInbox_occurrences in E.
    rewrite occurrences_app, E. reflexivity.
Qed.

Lemma occurrences_le_length (x : string) (l : list string) :
  (occurrences x l <= length l)%nat.
Proof. unfold occurrences. apply length_filter. Qed.

Lemma resolveLabelIDs_length (names : list string) (table : gmap string string) :
  (length (resolveLabelIDs names table) <= length names)%nat.
Proof.
  unfold resolveLabelIDs.
  induction names as [| name names IH]; cbn [omap list_omap length]; [lia |].
  destruct (table !! name); cbn [length]; lia.
Qed.

End ArchiveMerge.

Section ModifyClaims.
Import Modify.
Context (pkg : Package) (ctx : Context) (c : GmailMessagesModifyCmd)
        (flags : RootFlags).

(** The one batch-modify request of a run that gets that far. *)
Lemma Modify_Run_request account svc idMap :
  reachesBatchModify pkg flags c account svc idMap ->
  batchModifies (log (Modify.Run pkg ctx c flags))
  = [ {| Ids := IDs c;
         AddLabelIds := resolveLabelIDs (splitCSV pkg (AddLabel c)) idMap;
         RemoveLabelIds :=
           archiveMerge (Archive c)
             (resolveLabelIDs (splitCSV pkg (RemoveLabel c)) idMap) |} ].
Proof.
  intros (Hacc & Hids & Hany & Hsvc & Hmap).
  unfold Modify.Run. rewrite Hacc. cbn [lift bind].
  destruct (IDs c) as [| id ids] eqn:Eids; [congruence |].
  cbn [length Nat.eqb].
  assert (Hcheck : Nat.eqb (length (splitCSV pkg (AddLabel c))) 0
                   && Nat.eqb (length (splitCSV pkg (RemoveLabel c))) 0
                   && negb (Archive c) = false).
  { destruct Hany as [H | [H | H]].
    - destruct (splitCSV pkg (AddLabel c)); [congruence | reflexivity].
    - destruct (splitCSV pkg (RemoveLabel c)); [congruence |].
      cbn [length Nat.eqb]. now rewrite andb_false_r.
    - rewrite H. now rewrite andb_false_r. }
  rewrite Hcheck, Hsvc. cbn [call bind]. rewrite Hmap. cbn [bind app].
  destruct (Users_Messages_BatchModify svc "me" _) as [[] | e]; cbn [call bind app].
  - destruct (IsJSON ctx); reflexivity.
  - reflexivity.
Qed.

(** C4, as amended.  With the archive flag set, the removal list of the
    batch-modify request holds INBOX, and the merge never adds a second
    copy: INBOX occurs max(1, k) times, k being its occurrences among the
    resolved removal IDs; so exactly once whenever the resolved IDs hold
    it at most once, in particular for removeLabels = ["INBOX"], and for
    removeLabels = [] the list is exactly ["INBOX"]. *)
Theorem archive_adds_inbox_unless_present account svc idMap :
  reachesBatchModify pkg flags c account svc idMap ->
  Archive c = true ->
  let resolved := resolveLabelIDs (splitCSV pkg (RemoveLabel c)) idMap in
  exists req,
    batchModifies (log (Modify.Run pkg ctx c flags)) = [req]
    /\ occurrences "INBOX" (RemoveLabelIds req)
       = Nat.max 1 (occurrences "INBOX" resolved)
    /\ ((occurrences "INBOX" resolved <= 1)%nat ->
        occurrences "INBOX" (RemoveLabelIds req) = 1%nat)
    /\ (splitCSV pkg (RemoveLabel c) = ["INBOX"] ->
        occurrences "INBOX" (RemoveLabelIds req) = 1%nat)
    /\ (splitCSV pkg (RemoveLabel c) = [] -> RemoveLabelIds req = ["INBOX"]).
Proof.
  intros Hreach Harchive resolved.
  eexists. split; [apply (Modify_Run_request _ _ _ Hreach) |].
  cbn [RemoveLabelIds]. rewrite Harchive. fold resolved.
  pose proof (archiveMerge_occurrences resolved) as Hocc.
  split; [exact Hocc |].
  split; [intros Hle; lia |].
  split.
  - intros Hone.
    pose proof (occurrences_le_length "INBOX" resolved) as H1.
    pose proof (resolveLabelIDs_length (splitCSV pkg (RemoveLabel c)) idMap) as H2.
    fold resolved in H2. rewrite Hone in H2. cbn [length] in H2. lia.
  - intros Hnone. subst resolved. rewrite Hnone. reflexivity.
Qed.

(** C10.  The archive merge touches nothing but the end of the removal
    list.  The request carries the message IDs as given and the resolved
    add-label IDs, whatever the archive flag; its removal list is the
    resolved removal IDs, in their order and with their multiplicity,
    followed by INBOX when the flag is set and INBOX is not among them,
    and by nothing otherwise. *)
Theorem archive_merge_frame account svc idMap :
  reachesBatchModify pkg flags c account svc idMap ->
  let resolved := resolveLabelIDs (splitCSV pkg (RemoveLabel c)) idMap in
  exists req,
    batchModifies (log (Modify.Run pkg ctx c flags)) = [req]
    /\ Ids req = IDs c
    /\ AddLabelIds req = resolveLabelIDs (splitCSV pkg (AddLabel c)) idMap
    /\ (RemoveLabelIds req = resolved
        \/ RemoveLabelIds req = (resolved ++ ["INBOX"])%list)
    /\ ("INBOX" ∈ resolved -> RemoveLabelIds req = resolved)
    /\ (Archive c = false -> RemoveLabelIds req = resolved)
    /\ (Archive c = true -> "INBOX" ∉ resolved ->
        RemoveLabelIds req = (resolved ++ ["INBOX"])%list).
Proof.
  intros Hreach resolved.
  eexists. split; [apply (Modify_Run_request _ _ _ Hreach) |].
  cbn [Ids AddLabelIds RemoveLabelIds]. fold resolved.
  split; [reflexivity |]. split; [reflexivity |].
  unfold archiveMerge.
  destruct (hasInbox resolved) eqn:E; cbn [negb].
  - apply hasInbox_elem_of in E.
    destruct (Archive c);
      (split; [left; reflexivity |]); (split; [reflexivity |]);
      (split; [reflexivity |]); intros; try discriminate; contradiction.
  - assert ("INBOX" ∉ resolved) as Hnot.
    { intros Hin. apply hasInbox_elem_of in Hin. congruence. }
    destruct (Archive c).
    + split; [right; reflexivity |].
      split; [intros; contradiction |].
      split; [discriminate | reflexivity].
    + split; [left; reflexivity |].
      split; [reflexivity |].
      split; [reflexivity | discriminate].
Qed.

End ModifyClaims.

Lemma archive_adds_inbox_unless_present_witness :
  let pkg := Sample.package [] [] in
  let c := Sample.archiveInbox in
  let resolved := resolveLabelIDs (splitCSV pkg (Modify.RemoveLabel c)) Sample.labels in
  exists req,
    batchModifies (log (Modify.Run pkg Sample.json c Sample.flags)) = [req]
    /\ occurrences "INBOX" (RemoveLabelIds req)
       = Nat.max 1 (occurrences "INBOX" resolved)
    /\ ((occurrences "INBOX" resolved <= 1)%nat ->
        occurrences "INBOX" (RemoveLabelIds req) = 1%nat)
    /\ (splitCSV pkg (Modify.RemoveLabel c) = ["INBOX"] ->
        occurrences "INBOX" (RemoveLabelIds req) = 1%nat)
    /\ (splitCSV pkg (Modify.RemoveLabel c) = [] -> RemoveLabelIds req = ["INBOX"]).
Proof.
  apply (archive_adds_inbox_unless_present (Sample.package [] []) Sample.json
           Sample.archiveInbox Sample.flags "a@b.com" (Sample.service [])
           Sample.labels).
  - split; [reflexivity |]. split; [vm_compute; congruence |].
    split; [left; vm_compute; congruence |]. split; reflexivity.
  - reflexivity.
Defined.

(** C4, as stated, fails: asked to remove INBOX twice and to archive, the
    request removes INBOX twice. *)
Lemma archive_keeps_repeated_inbox :
  let run := Modify.Run (Sample.package [] []) Sample.human
               Sample.archiveInboxTwice Sample.flags in
  Modify.Archive Sample.archiveInboxTwice = true
  /\ batchModifies (log run)
     = [ {| Ids := ["m1"]; AddLabelIds := [];
            RemoveLabelIds := ["INBOX"; "INBOX"] |} ]
  /\ occurrences "INBOX" ["INBOX"; "INBOX"] = 2%nat.
Proof. repeat split; vm_compute; reflexivity. Qed.

Lemma archive_merge_frame_witness :
  let pkg := Sample.package [] [] in
  let svc := Sample.service [] in
  let reaches c := reachesBatchModify pkg Sample.flags c "a@b.com" svc Sample.labels in
  let requests c := batchModifies (log (Modify.Run pkg Sample.json c Sample.flags)) in
  (reaches Sample.archiveAmongOthers
   /\ exists req, requests Sample.archiveAmongOthers = [req]
        /\ Ids req = ["m1"; "m2"] /\ AddLabelIds req = ["Label_7"]
        /\ RemoveLabelIds req = ["Label_7"; "INBOX"; "Label_7"])
  /\ (reaches Sample.archiveAfterOthers
      /\ exists req, requests Sample.archiveAfterOthers = [req]
           /\ Ids req = ["m1"; "m2"] /\ AddLabelIds req = ["Label_7"]
           /\ RemoveLabelIds req = ["Label_7"; "Label_7"; "INBOX"])
  /\ (reaches Sample.removeWithoutArchive
      /\ exists req, requests Sample.removeWithoutArchive = [req]
           /\ Ids req = ["m1"; "m2"] /\ AddLabelIds req = ["Label_7"]
           /\ RemoveLabelIds req = ["Label_7"; "Label_7"]).
Proof.
  assert (Ha : reachesBatchModify (Sample.package [] []) Sample.flags
                 Sample.archiveAmongOthers "a@b.com" (Sample.service []) Sample.labels).
  { split; [reflexivity |]. split; [vm_compute; congruence |].
    split; [right; left; vm_compute; congruence |]. split; reflexivity. }
  assert (Hb : reachesBatchModify (Sample.package [] []) Sample.flags
                 Sample.archiveAfterOthers "a@b.com" (Sample.service []) Sample.labels).
  { split; [reflexivity |]. split; [vm_compute; congruence |].
    split; [right; left; vm_compute; congruence |]. split; reflexivity. }
  assert (Hc : reachesBatchModify (Sample.package [] []) Sample.flags
                 Sample.removeWithoutArchive "a@b.com" (Sample.service []) Sample.labels).
  { split; [reflexivity |]. split; [vm_compute; congruence |].
    split; [right; left; vm_compute; congruence |]. split; reflexivity. }
  cbv zeta. split; [| split].
  - split; [exact Ha |].
    destruct (archive_merge_frame (Sample.package [] []) Sample.json
                Sample.archiveAmongOthers Sample.flags "a@b.com" (Sample.service [])
                Sample.labels Ha)
      as (req & Hlog & Hids & Hadd & _ & Hpresent & _ & _).
    exists req. split; [exact Hlog |]. split; [exact Hids |]. split; [exact Hadd |].
    rewrite Hpresent; [reflexivity |].
    apply list_elem_of_In. vm_compute. tauto.
  - split; [exact Hb |].
    destruct (archive_merge_frame (Sample.package [] []) Sample.json
                Sample.archiveAfterOthers Sample.flags "a@b.com" (Sample.service [])
                Sample.labels Hb)
      as (req & Hlog & Hids & Hadd & _ & _ & _ & Habsent).
    exists req. split; [exact Hlog |]. split; [exact Hids |]. split; [exact Hadd |].
    rewrite Habsent; [reflexivity | reflexivity |].
    intros Hin. apply list_elem_of_In in Hin. vm_compute in Hin.
    destruct Hin as [H | [H | []]]; discriminate.
  - split; [exact Hc |].
    destruct (archive_merge_frame (Sample.package [] []) Sample.json
                Sample.removeWithoutArchive Sample.flags "a@b.com" (Sample.service [])
                Sample.labels Hc)
      as (req & Hlog & Hids & Hadd & _ & _ & Hoff & _).
    exists req. split; [exact Hlog |]. split; [exact Hids |]. split; [exact Hadd |].
    rewrite Hoff; reflexivity.
Defined.

(** ** The Body Selector *)

(** Induction over a MIME tree: a property of a part follows from the
    property of its children. *)
Lemma MessagePart_tree_ind (P : MessagePart -> Prop) :
  (forall mt hs bd cs, Forall P cs -> P (mkPart mt hs bd cs)) ->
  forall p, P p.
Proof.
  intros Hnode. fix IH 1. intros [mt hs bd cs]. apply Hnode.
  induction cs as [| child cs IHcs]; constructor; [apply IH | exact IHcs].
Qed.

Section BodySelector.
Context (mt : string).

Lemma partsOf_unfold (p : MessagePart) :
  partsOf p = p :: flat_map partsOf (children p).
Proof.
  destruct p as [mt' hs bd cs]. reflexivity.
Qed.

(** The walk returns the body of the first part, in pre-order, that has
    one of the wanted type. *)
Lemma findPartBody_preorder (p : MessagePart) :
  findPartBody mt p = head (omap (ownBody mt) (partsOf p)).
Proof.
  induction p as [mt' hs bd cs IH] using MessagePart_tree_ind.
  rewrite partsOf_unfold. cbn [omap list_omap children].
  cbn [findPartBody children].
  destruct (ownBody mt (mkPart mt' hs bd cs)) as [s |]; [reflexivity |].
  induction IH as [| child cs Hchild _ IHcs]; [reflexivity |].
  cbn [flat_map]. rewrite omap_app, Hchild.
  destruct (omap (ownBody mt) (partsOf child)) as [| s rest]; [exact IHcs |].
  reflexivity.
Qed.

Lemma head_omap_first {A B : Type} (f : A -> option B) (l : list A) (x : A) (y : B) :
  x ∈ l -> f x = Some y ->
  exists before z after t,
    l = (before ++ z :: after)%list
    /\ Forall (fun w => f w = None) before
    /\ f z = Some t
    /\ head (omap f l) = Some t.
Proof.
  induction l as [| a l IH]; intros Hin Hx; [inversion Hin |].
  destruct (f a) as [t |] eqn:Ea.
  - exists [], a, l, t. cbn [omap list_omap]. rewrite Ea.
    repeat split; try assumption; constructor.
  - apply elem_of_cons in Hin as [-> | Hin]; [congruence |].
    destruct (IH Hin Hx) as (before & z & after & t & -> & Hb & Hz & Hh).
    exists (a :: before), z, after, t. cbn [omap list_omap]. rewrite Ea.
    repeat split; try assumption; constructor; assumption.
Qed.

End BodySelector.

Lemma ownBody_Some (mt : string) (p : MessagePart) (s : string) :
  ownBody mt p = Some s
  <-> carries mt p /\ Base64.URLDecodeString (bodyData p) = Some s.
Proof.
  unfold ownBody, carries.
  destruct (String.eqb_spec (mimeType p) mt) as [Emt | Nmt];
    destruct (String.eqb_spec (bodyData p) EmptyString) as [Ebd | Nbd];
    cbn [andb negb]; split; try discriminate; tauto.
Qed.

(** C5, as amended.  When the tree holds, anywhere, a text/plain part
    whose body data is there and decodes as URL-safe base64, the Body
    Selector returns the decoded content of the first such part in
    pre-order and signals no HTML fallback, whatever text/html parts the
    tree holds and wherever they are; so the fallback is taken only when
    the tree has no such part.  Decoded content is what the encoder was
    given: when the body data of that part is the URL-safe base64 text of
    [text], the Body Selector returns [text]. *)
Theorem plain_text_wins (tree p : MessagePart) (s : string) :
  p ∈ partsOf tree ->
  plainCandidate p s ->
  exists before q after t,
    partsOf tree = (before ++ q :: after)%list
    /\ Forall (fun r => forall u, ~ plainCandidate r u) before
    /\ plainCandidate q t
    /\ (forall text, bodyData q = encodeWeb64 text -> t = text)
    /\ bestBodyForDisplay tree = (t, false).
Proof.
  intros Hin Hcand.
  apply ownBody_Some in Hcand.
  destruct (head_omap_first (ownBody "text/plain") _ _ _ Hin Hcand)
    as (before & q & after & t & Hparts & Hbefore & Hq & Hhead).
  exists before, q, after, t.
  split; [exact Hparts |].
  split.
  - eapply Forall_impl; [exact Hbefore |].
    intros r Hr u Hu. apply ownBody_Some in Hu. congruence.
  - apply ownBody_Some in Hq.
    split; [exact Hq |].
    split.
    + intros text Htext. destruct Hq as [_ Hdec].
      rewrite Htext, encodeWeb64_decodes in Hdec. congruence.
    + unfold bestBodyForDisplay.
      rewrite findPartBody_preorder, Hhead. reflexivity.
Qed.

Lemma plain_text_wins_witness :
  (Sample.plainPart ∈ partsOf (Payload Sample.original)
   /\ plainCandidate Sample.plainPart "Hello World")
  /\ (exists before q after t,
        partsOf (Payload Sample.original) = (before ++ q :: after)%list
        /\ Forall (fun r => forall u, ~ plainCandidate r u) before
        /\ plainCandidate q t
        /\ (forall text, bodyData q = encodeWeb64 text -> t = text)
        /\ bestBodyForDisplay (Payload Sample.original) = (t, false))
  /\ bestBodyForDisplay (Payload Sample.original) = ("Hello World", false).
Proof.
  assert (Hin : Sample.plainPart ∈ partsOf (Payload Sample.original))
    by (vm_compute; do 3 right; left).
  assert (Hcand : plainCandidate Sample.plainPart "Hello World")
    by (split; [split; [reflexivity | vm_compute; congruence]
               | vm_compute; reflexivity]).
  split; [split; [exact Hin | exact Hcand] |].
  split; [| vm_compute; reflexivity].
  apply (plain_text_wins (Payload Sample.original) Sample.plainPart "Hello World").
  - exact Hin.
  - exact Hcand.
Defined.

(** C5, as stated, fails: a tree with a text/plain part that carries body
    data and a text/html part, the text/plain part first; its data is not
    base64 text, so the part offers nothing and the HTML markup comes
    back, with the flag. *)
Lemma undecodable_plain_text_gives_html :
  let tree := mkPart "multipart/alternative" [] EmptyString
                [Sample.brokenPlainPart; Sample.htmlPart] in
  partsOf tree = [tree; Sample.brokenPlainPart; Sample.htmlPart]
  /\ carries "text/plain" Sample.brokenPlainPart
  /\ carries "text/html" Sample.htmlPart
  /\ Base64.URLDecodeString (bodyData Sample.brokenPlainPart) = None
  /\ Base64.URLDecodeString (bodyData Sample.htmlPart) = Some "<p>Hello World</p>"
  /\ bestBodyForDisplay tree = ("<p>Hello World</p>", true).
Proof.
  split; [reflexivity |].
  split; [split; [reflexivity | vm_compute; congruence] |].
  split; [split; [reflexivity | vm_compute; congruence] |].
  split; [vm_compute; reflexivity |].
  split; vm_compute; reflexivity.
Qed.

(** * Further properties of the commands *)

(** ** The modify command: refusals, failures, report *)

Section ModifyMore.
Import Modify.
Context (pkg : Package) (ctx : Context) (c : GmailMessagesModifyCmd)
        (flags : RootFlags).

Lemma Modify_check_false :
  splitCSV pkg (AddLabel c) <> []
  \/ splitCSV pkg (RemoveLabel c) <> []
  \/ Archive c = true ->
  Nat.eqb (length (splitCSV pkg (AddLabel c))) 0
  && Nat.eqb (length (splitCSV pkg (RemoveLabel c))) 0
  && negb (Archive c) = false.
Proof.
  intros [H | [H | H]].
  - destruct (splitCSV pkg (AddLabel c)); [congruence | reflexivity].
  - destruct (splitCSV pkg (RemoveLabel c)); [congruence |].
    cbn [length Nat.eqb]. now rewrite andb_false_r.
  - rewrite H. now rewrite andb_false_r.
Qed.

(** The whole run of a modify that gets to the batch-modify call. *)
Lemma Modify_Run_spec account svc idMap :
  reachesBatchModify pkg flags c account svc idMap ->
  Modify.Run pkg ctx c flags
  = let addIDs := resolveLabelIDs (splitCSV pkg (AddLabel c)) idMap in
    let removeIDs :=
      archiveMerge (Archive c)
        (resolveLabelIDs (splitCSV pkg (RemoveLabel c)) idMap) in
    let req := {| Ids := IDs c; AddLabelIds := addIDs;
                  RemoveLabelIds := removeIDs |} in
    let calls := [EvNewService account; EvLabelsList; EvBatchModify "me" req] in
    match Users_Messages_BatchModify svc "me" req with
    | Err e => (calls, Err e)
    | Ok _ =>
        ((calls ++
          [if IsJSON ctx then
             EvWriteJSON
               (<["modified" := VStrings (IDs c)]>
                  (<["count" := VInt (Z.of_nat (length (IDs c)))]>
                     (<["addedLabels" := VStrings addIDs]>
                        (<["removedLabels" := VStrings removeIDs]>
                           (<["archived" := VBool (Archive c)]> ∅)))))
           else
             EvOutPrintf (Sprintf "Modified %d message(s)"
                                  [AInt (Z.of_nat (length (IDs c)))])])%list,
         Ok tt)
    end.
Proof.
  intros (Hacc & Hids & Hany & Hsvc & Hmap).
  unfold Modify.Run. rewrite Hacc. cbn [lift bind].
  assert (Hlen : Nat.eqb (length (IDs c)) 0 = false).
  { destruct (IDs c); [congruence | reflexivity]. }
  rewrite Hlen, (Modify_check_false Hany), Hsvc. cbn [call bind].
  rewrite Hmap. cbn [bind app]. cbv zeta.
  destruct (Users_Messages_BatchModify svc "me" _) as [[] | e]; cbn [call bind app].
  - destruct (IsJSON ctx); reflexivity.
  - reflexivity.
Qed.

(** X1.  Without message IDs the command stops with the usage error
    "must specify --ids" (after the account lookup) and does nothing
    else: no service, no label listing, no modification. *)
Theorem modify_requires_ids :
  IDs c = [] ->
  log (Modify.Run pkg ctx c flags) = []
  /\ outcome (Modify.Run pkg ctx c flags)
     = match requireAccount pkg flags with
       | Err e => Err e
       | Ok _ => Err (usage "must specify --ids")
       end.
Proof.
  intros Hids. unfold Modify.Run. rewrite Hids.
  destruct (requireAccount pkg flags); split; reflexivity.
Qed.

(** X2.  With message IDs but nothing to do (no label to add or remove
    once the lists are split, no archive flag) the command stops with the
    usage error that names the three options, and does nothing else. *)
Theorem modify_requires_an_action :
  IDs c <> [] ->
  splitCSV pkg (AddLabel c) = [] ->
  splitCSV pkg (RemoveLabel c) = [] ->
  Archive c = false ->
  log (Modify.Run pkg ctx c flags) = []
  /\ outcome (Modify.Run pkg ctx c flags)
     = match requireAccount pkg flags with
       | Err e => Err e
       | Ok _ =>
           Err (usage "must specify --add-label, --remove-label, and/or --archive")
       end.
Proof.
  intros Hids Hadd Hrem Harch. unfold Modify.Run.
  destruct (requireAccount pkg flags); [| split; reflexivity].
  cbn [lift bind].
  destruct (IDs c); [congruence |].
  rewrite Hadd, Hrem, Harch. split; reflexivity.
Qed.

(** X3.  When the label table cannot be fetched, the command returns that
    error as it is and never issues the batch-modify call; nothing is
    printed. *)
Theorem modify_needs_label_table account svc e :
  requireAccount pkg flags = Ok account ->
  IDs c <> [] ->
  (splitCSV pkg (AddLabel c) <> [] \/ splitCSV pkg (RemoveLabel c) <> []
   \/ Archive c = true) ->
  newGmailService pkg account = Ok svc ->
  fetchLabelNameToID pkg svc = Err e ->
  outcome (Modify.Run pkg ctx c flags) = Err e
  /\ batchModifies (log (Modify.Run pkg ctx c flags)) = []
  /\ log (Modify.Run pkg ctx c flags) = [EvNewService account; EvLabelsList].
Proof.
  intros Hacc Hids Hany Hsvc Hmap.
  unfold Modify.Run. rewrite Hacc. cbn [lift bind].
  assert (Hlen : Nat.eqb (length (IDs c)) 0 = false).
  { destruct (IDs c); [congruence | reflexivity]. }
  rewrite Hlen, (Modify_check_false Hany), Hsvc. cbn [call bind].
  rewrite Hmap. repeat split.
Qed.

(** X4.  When the batch-modify call fails, its error is the outcome and
    no result is written, neither the JSON object nor the "Modified"
    line; the call was made once. *)
Theorem modify_failure_reports_nothing account svc idMap e :
  reachesBatchModify pkg flags c account svc idMap ->
  Users_Messages_BatchModify svc "me"
    {| Ids := IDs c;
       AddLabelIds := resolveLabelIDs (splitCSV pkg (AddLabel c)) idMap;
       RemoveLabelIds :=
         archiveMerge (Archive c)
           (resolveLabelIDs (splitCSV pkg (RemoveLabel c)) idMap) |}
  = Err e ->
  outcome (Modify.Run pkg ctx c flags) = Err e
  /\ jsonResults (log (Modify.Run pkg ctx c flags)) = []
  /\ outLines (log (Modify.Run pkg ctx c flags)) = []
  /\ length (batchModifies (log (Modify.Run pkg ctx c flags))) = 1%nat.
Proof.
  intros Hreach Hfail.
  rewrite (Modify_Run_spec _ _ _ Hreach). cbv zeta. rewrite Hfail.
  repeat split.
Qed.


End ModifyMore.

(** X6.  The archive merge is idempotent and its result always holds
    INBOX: merging again changes nothing. *)
Theorem archive_merge_idempotent (removeIDs : list string) :
  "INBOX" ∈ Modify.archiveMerge true removeIDs
  /\ Modify.archiveMerge true (Modify.archiveMerge true removeIDs)
     = Modify.archiveMerge true removeIDs.
Proof.
  assert (Hin : "INBOX" ∈ Modify.archiveMerge true removeIDs).
  { unfold Modify.archiveMerge.
    destruct (Modify.hasInbox removeIDs) eqn:E; cbn [negb].
    - now apply hasInbox_elem_of.
    - apply elem_of_app. right. now left. }
  split; [exact Hin |].
  apply hasInbox_elem_of in Hin.
  unfold Modify.archiveMerge at 1. now rewrite Hin.
Qed.

(** ** The forward command: failures, count, order, content *)

Lemma jsonResults_app (l1 l2 : list event) :
  jsonResults (l1 ++ l2) = (jsonResults l1 ++ jsonResults l2)%list.
Proof. apply omap_app. Qed.

Lemma outLines_app (l1 l2 : list event) :
  outLines (l1 ++ l2) = (outLines l1 ++ outLines l2)%list.
Proof. apply omap_app. Qed.

Section AttachLog.
Context (pkg : Package) (svc : Service) (messageID : string).

Lemma json_attachEvents attachments :
  jsonResults (attachEvents pkg svc messageID attachments) = [].
Proof.
  induction attachments as [| att rest IH]; [reflexivity |].
  unfold attachEvents in *. cbn [flat_map].
  rewrite jsonResults_app, IH.
  destruct (fetchAttachment pkg svc messageID att); reflexivity.
Qed.

Lemma out_attachEvents attachments :
  outLines (attachEvents pkg svc messageID attachments) = [].
Proof.
  induction attachments as [| att rest IH]; [reflexivity |].
  unfold attachEvents in *. cbn [flat_map].
  rewrite outLines_app, IH.
  destruct (fetchAttachment pkg svc messageID att); reflexivity.
Qed.

(** Every collected attachment is either embedded or warned about. *)
Lemma embedded_plus_failed attachments :
  length attachments
  = (length (embedded pkg svc messageID attachments)
     + length (failedWarnings pkg svc messageID attachments))%nat.
Proof.
  unfold embedded, failedWarnings.
  induction attachments as [| att rest IH]; [reflexivity |].
  cbn [omap list_omap length].
  destruct (fetchAttachment pkg svc messageID att); cbn [length]; lia.
Qed.

Lemma embedded_sublist attachments :
  map fst (embedded pkg svc messageID attachments) `sublist_of` attachments.
Proof.
  unfold embedded.
  induction attachments as [| att rest IH]; [constructor |].
  cbn [omap list_omap].
  destruct (fetchAttachment pkg svc messageID att); cbn [map fst].
  - now apply sublist_skip.
  - now apply sublist_cons.
Qed.

Lemma embedded_fetched attachments att data :
  (att, data) ∈ embedded pkg svc messageID attachments ->
  att ∈ attachments /\ fetchAttachment pkg svc messageID att = Ok data.
Proof.
  unfold embedded. intros H.
  apply list_elem_of_omap in H as (att' & Hin & H).
  destruct (fetchAttachment pkg svc messageID att') eqn:E; [| discriminate].
  injection H as <- <-. now split.
Qed.

End AttachLog.

Section ForwardMore.
Import Multipart.
Context (pkg : Package) (ctx : Context) (rnd : string)
        (c : GmailMessagesForwardCmd) (flags : RootFlags).

Lemma Forward_last_report account svc original sent :
  reachesComposer pkg flags c account svc original ->
  Users_Messages_Send svc "me"
    (sendRequest (encodeWeb64 (composedMessage pkg svc rnd c (Payload original))))
  = Ok sent ->
  last (log (Forward.Run pkg ctx rnd c flags))
  = Some (forwardReport ctx (TrimSpace (MessageID c)) (TrimSpace (To c))
            (composedSubject (Subject c) (headerValue (Payload original) "Subject"))
            (length (collectAttachments pkg (Payload original))) sent).
Proof.
  intros Hreach Hsend.
  rewrite (Forward_success _ _ _ _ _ _ _ _ _ Hreach Hsend). unfold log. cbn [fst].
  rewrite !app_assoc.
  change [EvMessagesSend "me"
            (sendRequest
               (encodeWeb64 (composedMessage pkg svc rnd c (Payload original))));
          forwardReport ctx (TrimSpace (MessageID c)) (TrimSpace (To c))
            (composedSubject (Subject c) (headerValue (Payload original) "Subject"))
            (length (collectAttachments pkg (Payload original))) sent]
    with ([EvMessagesSend "me"
             (sendRequest
                (encodeWeb64 (composedMessage pkg svc rnd c (Payload original))))]
          ++ [forwardReport ctx (TrimSpace (MessageID c)) (TrimSpace (To c))
                (composedSubject (Subject c)
                   (headerValue (Payload original) "Subject"))
                (length (collectAttachments pkg (Payload original))) sent])%list.
  rewrite app_assoc. apply last_snoc.
Qed.

Lemma Forward_warnings account svc original :
  reachesComposer pkg flags c account svc original ->
  warnings (log (Forward.Run pkg ctx rnd c flags))
  = failedWarnings pkg svc (TrimSpace (MessageID c))
      (collectAttachments pkg (Payload original)).
Proof.
  intros (Hacc & Hid & Hto & Hsvc & Hget).
  rewrite (Forward_Run_spec _ _ _ _ _ _ _ _ Hacc Hid Hto Hsvc Hget).
  cbv zeta.
  destruct (Users_Messages_Send svc "me" _) as [sent | e]; unfold log; cbn [fst].
  - change (EvNewService account
            :: EvMessagesGet "me" (TrimSpace (MessageID c)) "full"
            :: attachEvents pkg svc (TrimSpace (MessageID c))
                 (collectAttachments pkg (Payload original))
            ++ [EvMessagesSend "me"
                  (sendRequest
                     (encodeWeb64
                        (composedMessage pkg svc rnd c (Payload original))))])%list
      with ([EvNewService account;
             EvMessagesGet "me" (TrimSpace (MessageID c)) "full"]
            ++ attachEvents pkg svc (TrimSpace (MessageID c))
                 (collectAttachments pkg (Payload original))
            ++ [EvMessagesSend "me"
                  (sendRequest
                     (encodeWeb64
                        (composedMessage pkg svc rnd c (Payload original))))])%list.
    rewrite !warnings_app, warnings_attachEvents.
    unfold forwardReport. destruct (IsJSON ctx); cbn; rewrite ?app_nil_r; reflexivity.
  - change (EvNewService account
            :: EvMessagesGet "me" (TrimSpace (MessageID c)) "full"
            :: attachEvents pkg svc (TrimSpace (MessageID c))
                 (collectAttachments pkg (Payload original))
            ++ [EvMessagesSend "me"
                  (sendRequest
                     (encodeWeb64
                        (composedMessage pkg svc rnd c (Payload original))))])%list
      with ([EvNewService account;
             EvMessagesGet "me" (TrimSpace (MessageID c)) "full"]
            ++ attachEvents pkg svc (TrimSpace (MessageID c))
                 (collectAttachments pkg (Payload original))
            ++ [EvMessagesSend "me"
                  (sendRequest
                     (encodeWeb64
                        (composedMessage pkg svc rnd c (Payload original))))])%list.
    rewrite !warnings_app, warnings_attachEvents. cbn. rewrite ?app_nil_r. reflexivity.
Qed.

(** X7.  When the original message cannot be fetched, the command ends
    with that error under the context "fetching message"; it fetches no
    attachment and sends nothing. *)
Theorem forward_needs_the_original account svc e :
  requireAccount pkg flags = Ok account ->
  TrimSpace (MessageID c) <> EmptyString ->
  TrimSpace (To c) <> EmptyString ->
  newGmailService pkg account = Ok svc ->
  Users_Messages_Get svc "me" (TrimSpace (MessageID c)) "full" = Err e ->
  log (Forward.Run pkg ctx rnd c flags)
  = [EvNewService account; EvMessagesGet "me" (TrimSpace (MessageID c)) "full"]
  /\ (exists err,
        outcome (Forward.Run pkg ctx rnd c flags) = Err err
        /\ Error err = "fetching message: " +:+ Error e)
  /\ fetchedAttachments (log (Forward.Run pkg ctx rnd c flags)) = []
  /\ sentMessages (log (Forward.Run pkg ctx rnd c flags)) = [].
Proof.
  intros Hacc Hid Hto Hsvc Hget.
  unfold Forward.Run. rewrite Hacc. cbn [lift bind].
  rewrite (eqb_empty_false _ Hid), (eqb_empty_false _ Hto), Hsvc.
  cbn [call bind]. rewrite Hget. cbn [wrapErr bind app log outcome fst snd].
  split; [reflexivity |]. split; [| split; reflexivity].
  eexists. split; reflexivity.
Qed.

(** X8.  When the send fails, the command ends with that error under the
    context "sending forwarded message" and writes no result; the message
    was submitted once, after the attachment loop and its warnings. *)
Theorem forward_send_failure_reports_nothing account svc original e :
  reachesComposer pkg flags c account svc original ->
  Users_Messages_Send svc "me"
    (sendRequest (encodeWeb64 (composedMessage pkg svc rnd c (Payload original))))
  = Err e ->
  (exists err,
     outcome (Forward.Run pkg ctx rnd c flags) = Err err
     /\ Error err = "sending forwarded message: " +:+ Error e)
  /\ jsonResults (log (Forward.Run pkg ctx rnd c flags)) = []
  /\ outLines (log (Forward.Run pkg ctx rnd c flags)) = []
  /\ length (sentMessages (log (Forward.Run pkg ctx rnd c flags))) = 1%nat
  /\ warnings (log (Forward.Run pkg ctx rnd c flags))
     = failedWarnings pkg svc (TrimSpace (MessageID c))
         (collectAttachments pkg (Payload original)).
Proof.
  intros Hreach Hsend.
  pose proof (Forward_sends pkg ctx rnd c flags _ _ _ Hreach) as Hsent.
  pose proof (Forward_warnings _ _ _ Hreach) as Hwarn.
  rewrite Hsent, Hwarn.
  destruct Hreach as (Hacc & Hid & Hto & Hsvc & Hget).
  rewrite (Forward_Run_spec _ _ _ _ _ _ _ _ Hacc Hid Hto Hsvc Hget).
  cbv zeta. rewrite Hsend. unfold log, outcome. cbn [fst snd].
  split; [eexists; split; reflexivity |].
  change (EvNewService account
          :: EvMessagesGet "me" (TrimSpace (MessageID c)) "full"
          :: attachEvents pkg svc (TrimSpace (MessageID c))
               (collectAttachments pkg (Payload original))
          ++ [EvMessagesSend "me"
                (sendRequest
                   (encodeWeb64 (composedMessage pkg svc rnd c (Payload original))))])%list
    with ([EvNewService account;
           EvMessagesGet "me" (TrimSpace (MessageID c)) "full"]
          ++ attachEvents pkg svc (TrimSpace (MessageID c))
               (collectAttachments pkg (Payload original))
          ++ [EvMessagesSend "me"
                (sendRequest
                   (encodeWeb64 (composedMessage pkg svc rnd c (Payload original))))])%list.
  rewrite !jsonResults_app, !outLines_app.
  rewrite json_attachEvents, out_attachEvents.
  repeat split.
Qed.

(** X9.  The attachment count of the result is the number of attachments
    embedded in the message plus the number of warnings printed: it is
    the number embedded exactly when no warning was printed. *)
Theorem forward_count_is_embedded_plus_warnings account svc original sent :
  reachesComposer pkg flags c account svc original ->
  Users_Messages_Send svc "me"
    (sendRequest (encodeWeb64 (composedMessage pkg svc rnd c (Payload original))))
  = Ok sent ->
  exists count,
    last (log (Forward.Run pkg ctx rnd c flags))
    = Some (forwardReport ctx (TrimSpace (MessageID c)) (TrimSpace (To c))
              (composedSubject (Subject c)
                 (headerValue (Payload original) "Subject"))
              count sent)
    /\ count
       = (length (embedded pkg svc (TrimSpace (MessageID c))
                    (collectAttachments pkg (Payload original)))
          + length (warnings (log (Forward.Run pkg ctx rnd c flags))))%nat.
Proof.
  intros Hreach Hsend.
  eexists. split; [apply (Forward_last_report _ _ _ _ Hreach Hsend) |].
  rewrite (Forward_warnings _ _ _ Hreach). apply embedded_plus_failed.
Qed.

End ForwardMore.

Section ForwardParts.
Import Multipart.
Context (pkg : Package) (ctx : Context) (rnd : string)
        (c : GmailMessagesForwardCmd) (flags : RootFlags).

(** X10.  The attachment parts of the message follow the collector's
    order: they are the parts of a sub-sequence of the collected
    attachments, each holding the bytes that the fetch and decode of its
    own attachment gave. *)
Theorem embedded_parts_follow_the_collector account svc original :
  reachesComposer pkg flags c account svc original ->
  exists kept : list (attachmentInfo * string),
    sentMessages (log (Forward.Run pkg ctx rnd c flags))
    = [sendRequest
         (encodeWeb64
            (headerBlock (TrimSpace (To c))
               (composedSubject (Subject c)
                  (headerValue (Payload original) "Subject"))
               (multipartType (randomBoundary rnd))
             +:+ CRLF
             +:+ multipartBody (randomBoundary rnd)
                   (textPart (preamble (Payload original)))
                   (map (fun ad => attachmentPart (fst ad) (snd ad)) kept)))]
    /\ map fst kept `sublist_of` collectAttachments pkg (Payload original)
    /\ (forall att data,
          (att, data) ∈ kept ->
          fetchAttachment pkg svc (TrimSpace (MessageID c)) att = Ok data).
Proof.
  intros Hreach.
  exists (embedded pkg svc (TrimSpace (MessageID c))
            (collectAttachments pkg (Payload original))).
  split; [apply (Forward_sends _ _ _ _ _ _ _ _ Hreach) |].
  split; [apply embedded_sublist |].
  intros att data Hin. now apply embedded_fetched in Hin.
Qed.

End ForwardParts.

Section AddAttachment.
Import Multipart Forward.
Context (pkg : Package) (svc : Service) (writer : Writer)
        (messageID : string) (att : attachmentInfo).

(** X11.  A fetched and decoded attachment becomes one part appended to
    the writer: the delimiter line of the writer's boundary, the
    Content-Disposition header with the file name in quotes, the
    Content-Transfer-Encoding header, the Content-Type header with the
    attachment's MIME type, an empty line, and a body in standard base64
    that decodes back to the attachment's bytes. *)
Theorem attachment_part_is_written attachData data :
  Users_Messages_Attachments_Get svc "me" messageID (AttachmentID att)
  = Ok attachData ->
  decodeBase64URLBytes pkg (Data attachData) = Ok data ->
  exists writer' body,
    addAttachmentToMultipart pkg svc writer messageID att
    = ([EvAttachmentsGet "me" messageID (AttachmentID att)], Ok writer')
    /\ boundary writer' = boundary writer
    /\ buf writer'
       = buf writer
         +:+ (if lastpart writer then CRLF else EmptyString)
         +:+ "--" +:+ boundary writer +:+ CRLF
         +:+ "Content-Disposition: attachment; filename=" +:+ QUOTE
         +:+ Filename att +:+ QUOTE +:+ CRLF
         +:+ "Content-Transfer-Encoding: base64" +:+ CRLF
         +:+ "Content-Type: " +:+ MimeType att +:+ CRLF
         +:+ CRLF
         +:+ body
    /\ Base64.Decode Base64.encodeStd body = Some data.
Proof.
  intros Hfetch Hdecode.
  unfold addAttachmentToMultipart. rewrite Hfetch.
  cbn [wrapErr call bind]. rewrite Hdecode. cbn [wrapErr lift bind ret app].
  eexists. exists (Base64.StdEncodeToString data).
  split; [reflexivity |]. split; [reflexivity |].
  split; [| apply Decode_Encode; [apply encodeStd_good | reflexivity]].
  unfold Write, CreatePart. cbn [boundary buf lastpart].
  rewrite attachmentHeader_lines, Sprintf_disposition.
  destruct (lastpart writer); rewrite !append_assoc; reflexivity.
Qed.

(** X12.  An attachment that cannot be fetched, or whose data does not
    decode, costs one fetch and gives the error back under the context
    "fetching attachment", respectively "decoding attachment data". *)
Theorem attachment_errors_name_the_step e :
  (Users_Messages_Attachments_Get svc "me" messageID (AttachmentID att) = Err e ->
   addAttachmentToMultipart pkg svc writer messageID att
   = ([EvAttachmentsGet "me" messageID (AttachmentID att)],
      Err (Errorf_w "fetching attachment" e)))
  /\ (forall attachData,
        Users_Messages_Attachments_Get svc "me" messageID (AttachmentID att)
        = Ok attachData ->
        decodeBase64URLBytes pkg (Data attachData) = Err e ->
        addAttachmentToMultipart pkg svc writer messageID att
        = ([EvAttachmentsGet "me" messageID (AttachmentID att)],
           Err (Errorf_w "decoding attachment data" e))).
Proof.
  split.
  - intros Hfetch. unfold addAttachmentToMultipart. now rewrite Hfetch.
  - intros attachData Hfetch Hdecode.
    unfold addAttachmentToMultipart. rewrite Hfetch.
    cbn [wrapErr call bind]. now rewrite Hdecode.
Qed.

End AddAttachment.

(** ** [encodeWeb64] *)

(** X13.  [encodeWeb64] loses nothing: decoding its output as URL-safe
    base64 gives the input back, so two different inputs never encode to
    the same text. *)
Theorem encodeWeb64_is_lossless :
  (forall s, Base64.URLDecodeString (encodeWeb64 s) = Some s)
  /\ (forall s1 s2, encodeWeb64 s1 = encodeWeb64 s2 -> s1 = s2).
Proof.
  split; [apply encodeWeb64_decodes |].
  intros s1 s2 H.
  pose proof (encodeWeb64_decodes s1) as H1.
  rewrite H, encodeWeb64_decodes in H1. congruence.
Qed.

(** X14.  The output of [encodeWeb64] is padded: four characters for
    every three bytes of input, the last group rounded up. *)
Theorem encodeWeb64_length (s : string) :
  String.length (encodeWeb64 s) = (4 * ((String.length s + 2) / 3))%nat.
Proof.
  unfold encodeWeb64, Base64.URLEncodeToString.
  induction s as [| a | a b | a b c s IH] using string_ind_by3;
    try reflexivity.
  cbn [Base64.Encode String.length]. rewrite IH.
  replace (S (S (S (String.length s))) + 2)%nat
    with (1 * 3 + (String.length s + 2))%nat by lia.
  rewrite Nat.div_add_l by lia. lia.
Qed.

(** ** The Classroom delete commands: nothing is deleted unasked *)

Section ClassroomDeletes.
Import Classroom.
Context (pkg : Classroom.Package) (ctx : Context) (flags : RootFlags).

Ltac no_delete H :=
  cbn in H; repeat (apply elem_of_cons in H as [H | H]; [discriminate |]);
  now apply elem_of_nil in H.

(** X16.  A topic is deleted only after its IDs, trimmed, were found
    non-empty and the confirmation of "delete topic <topic> from
    <course>" was given: whenever the delete call appears in the log of
    a run, it is for the trimmed IDs and comes right after that
    confirmation and the construction of the service. *)
Theorem topic_deleted_only_when_confirmed (c : ClassroomTopicsDeleteCmd)
    (courseId topicId : string) :
  EvTopicsDelete courseId topicId ∈ Classroom.log (TopicsDelete_Run pkg ctx c flags) ->
  courseId = TrimSpace (CourseID c)
  /\ topicId = TrimSpace (TopicID c)
  /\ courseId <> EmptyString
  /\ topicId <> EmptyString
  /\ confirmDestructive pkg ctx flags
       ("delete topic " +:+ topicId +:+ " from " +:+ courseId) = Ok tt
  /\ exists account rest,
       Classroom.log (TopicsDelete_Run pkg ctx c flags)
       = EvConfirm ("delete topic " +:+ topicId +:+ " from " +:+ courseId)
         :: EvNewService account :: EvTopicsDelete courseId topicId :: rest.
Proof.
  unfold TopicsDelete_Run, Classroom.log.
  change (Sprintf "delete topic %s from %s"
            [AStr (TrimSpace (TopicID c)); AStr (TrimSpace (CourseID c))])
    with ("delete topic " +:+ TrimSpace (TopicID c) +:+ " from "
          +:+ (TrimSpace (CourseID c) +:+ EmptyString)).
  rewrite append_empty_r.
  destruct (Classroom.requireAccount pkg flags) as [account | e];
    [| intros H; no_delete H].
  cbn [lift bind].
  destruct (String.eqb_spec (TrimSpace (CourseID c)) EmptyString) as [E1 | N1];
    [intros H; no_delete H |].
  destruct (String.eqb_spec (TrimSpace (TopicID c)) EmptyString) as [E2 | N2];
    [intros H; no_delete H |].
  destruct (confirmDestructive pkg ctx flags _) as [[] | e] eqn:Econf;
    [| intros H; no_delete H].
  cbn [call bind].
  destruct (newClassroomService pkg account) as [svc | e];
    [| intros H; no_delete H].
  cbn [wrapped call bind].
  destruct (Courses_Topics_Delete svc _ _) as [[] | e]; cbn [wrapped call bind app].
  - destruct (IsJSON ctx); cbn; intros H;
      apply elem_of_cons in H as [H | H]; try discriminate;
      apply elem_of_cons in H as [H | H]; try discriminate;
      apply elem_of_cons in H as [H | H]; try no_delete H;
      injection H as -> ->; repeat split; auto; eexists _, _; reflexivity.
  - intros H.
    apply elem_of_cons in H as [H | H]; try discriminate.
    apply elem_of_cons in H as [H | H]; try discriminate.
    apply elem_of_cons in H as [H | H]; [| now apply elem_of_nil in H].
    injection H as -> ->. repeat split; auto. eexists _, _; reflexivity.
Qed.

(** X17.  A guardian is removed only after the IDs, trimmed, were found
    non-empty and the confirmation of "delete guardian <guardian> for
    student <student>" was given; the delete call is for the trimmed IDs
    and comes right after that confirmation and the construction of the
    service. *)
Theorem guardian_deleted_only_when_confirmed (c : ClassroomGuardiansDeleteCmd)
    (studentId guardianId : string) :
  EvGuardiansDelete studentId guardianId
    ∈ Classroom.log (GuardiansDelete_Run pkg ctx c flags) ->
  studentId = TrimSpace (StudentID c)
  /\ guardianId = TrimSpace (GuardianID c)
  /\ studentId <> EmptyString
  /\ guardianId <> EmptyString
  /\ confirmDestructive pkg ctx flags
       ("delete guardian " +:+ guardianId +:+ " for student " +:+ studentId)
     = Ok tt
  /\ exists account rest,
       Classroom.log (GuardiansDelete_Run pkg ctx c flags)
       = EvConfirm ("delete guardian " +:+ guardianId +:+ " for student "
                    +:+ studentId)
         :: EvNewService account :: EvGuardiansDelete studentId guardianId :: rest.
Proof.
  unfold GuardiansDelete_Run, Classroom.log.
  change (Sprintf "delete guardian %s for student %s"
            [AStr (TrimSpace (GuardianID c)); AStr (TrimSpace (StudentID c))])
    with ("delete guardian " +:+ TrimSpace (GuardianID c) +:+ " for student "
          +:+ (TrimSpace (StudentID c) +:+ EmptyString)).
  rewrite append_empty_r.
  destruct (Classroom.requireAccount pkg flags) as [account | e];
    [| intros H; no_delete H].
  cbn [lift bind].
  destruct (String.eqb_spec (TrimSpace (StudentID c)) EmptyString) as [E1 | N1];
    [intros H; no_delete H |].
  destruct (String.eqb_spec (TrimSpace (GuardianID c)) EmptyString) as [E2 | N2];
    [intros H; no_delete H |].
  destruct (confirmDestructive pkg ctx flags _) as [[] | e] eqn:Econf;
    [| intros H; no_delete H].
  cbn [call bind].
  destruct (newClassroomService pkg account) as [svc | e];
    [| intros H; no_delete H].
  cbn [wrapped call bind].
  destruct (UserProfiles_Guardians_Delete svc _ _) as [[] | e];
    cbn [wrapped call bind app].
  - destruct (IsJSON ctx); cbn; intros H;
      apply elem_of_cons in H as [H | H]; try discriminate;
      apply elem_of_cons in H as [H | H]; try discriminate;
      apply elem_of_cons in H as [H | H]; try no_delete H;
      injection H as -> ->; repeat split; auto; eexists _, _; reflexivity.
  - intros H.
    apply elem_of_cons in H as [H | H]; try discriminate.
    apply elem_of_cons in H as [H | H]; try discriminate.
    apply elem_of_cons in H as [H | H]; [| now apply elem_of_nil in H].
    injection H as -> ->. repeat split; auto. eexists _, _; reflexivity.
Qed.

(** X18.  An invitation is deleted only after its ID, trimmed, was found
    non-empty and the confirmation of "delete invitation <id>" was given;
    the delete call is for the trimmed ID and comes right after that
    confirmation and the construction of the service. *)
Theorem invitation_deleted_only_when_confirmed (c : ClassroomInvitationsDeleteCmd)
    (invitationId : string) :
  EvInvitationsDelete invitationId
    ∈ Classroom.log (InvitationsDelete_Run pkg ctx c flags) ->
  invitationId = TrimSpace (InvitationID c)
  /\ invitationId <> EmptyString
  /\ confirmDestructive pkg ctx flags ("delete invitation " +:+ invitationId)
     = Ok tt
  /\ exists account rest,
       Classroom.log (InvitationsDelete_Run pkg ctx c flags)
       = EvConfirm ("delete invitation " +:+ invitationId)
         :: EvNewService account :: EvInvitationsDelete invitationId :: rest.
Proof.
  unfold InvitationsDelete_Run, Classroom.log.
  change (Sprintf "delete invitation %s" [AStr (TrimSpace (InvitationID c))])
    with ("delete invitation " +:+ (TrimSpace (InvitationID c) +:+ EmptyString)).
  rewrite append_empty_r.
  destruct (Classroom.requireAccount pkg flags) as [account | e];
    [| intros H; no_delete H].
  cbn [lift bind].
  destruct (String.eqb_spec (TrimSpace (InvitationID c)) EmptyString) as [E1 | N1];
    [intros H; no_delete H |].
  destruct (confirmDestructive pkg ctx flags _) as [[] | e] eqn:Econf;
    [| intros H; no_delete H].
  cbn [call bind].
  destruct (newClassroomService pkg account) as [svc | e];
    [| intros H; no_delete H].
  cbn [wrapped call bind].
  destruct (Invitations_Delete svc _) as [[] | e]; cbn [wrapped call bind app].
  - destruct (IsJSON ctx); cbn; intros H;
      apply elem_of_cons in H as [H | H]; try discriminate;
      apply elem_of_cons in H as [H | H]; try discriminate;
      apply elem_of_cons in H as [H | H]; try no_delete H;
      injection H as ->; repeat split; auto; eexists _, _; reflexivity.
  - intros H.
    apply elem_of_cons in H as [H | H]; try discriminate.
    apply elem_of_cons in H as [H | H]; try discriminate.
    apply elem_of_cons in H as [H | H]; [| now apply elem_of_nil in H].
    injection H as ->. repeat split; auto. eexists _, _; reflexivity.
Qed.

End ClassroomDeletes.

Lemma topic_deleted_only_when_confirmed_witness :
  "c1" = TrimSpace (Classroom.CourseID Classroom.sampleTopic)
  /\ "t1" = TrimSpace (Classroom.TopicID Classroom.sampleTopic)
  /\ "c1" <> EmptyString
  /\ "t1" <> EmptyString
  /\ Classroom.confirmDestructive (Classroom.samplePackage false) Sample.json
       Sample.flags ("delete topic " +:+ "t1" +:+ " from " +:+ "c1") = Ok tt
  /\ exists account rest,
       Classroom.log (Classroom.TopicsDelete_Run (Classroom.samplePackage false)
                        Sample.json Classroom.sampleTopic Sample.flags)
       = Classroom.EvConfirm ("delete topic " +:+ "t1" +:+ " from " +:+ "c1")
         :: Classroom.EvNewService account
         :: Classroom.EvTopicsDelete "c1" "t1" :: rest.
Proof.
  apply (topic_deleted_only_when_confirmed (Classroom.samplePackage false)
           Sample.json Sample.flags Classroom.sampleTopic "c1" "t1").
  vm_compute. do 2 right. left.
Defined.

Lemma guardian_deleted_only_when_confirmed_witness :
  "s1" = TrimSpace (Classroom.StudentID Classroom.sampleGuardian)
  /\ "g1" = TrimSpace (Classroom.GuardianID Classroom.sampleGuardian)
  /\ "s1" <> EmptyString
  /\ "g1" <> EmptyString
  /\ Classroom.confirmDestructive (Classroom.samplePackage false) Sample.human
       Sample.flags ("delete guardian " +:+ "g1" +:+ " for student " +:+ "s1")
     = Ok tt
  /\ exists account rest,
       Classroom.log (Classroom.GuardiansDelete_Run (Classroom.samplePackage false)
                        Sample.human Classroom.sampleGuardian Sample.flags)
       = Classroom.EvConfirm ("delete guardian " +:+ "g1" +:+ " for student "
                              +:+ "s1")
         :: Classroom.EvNewService account
         :: Classroom.EvGuardiansDelete "s1" "g1" :: rest.
Proof.
  apply (guardian_deleted_only_when_confirmed (Classroom.samplePackage false)
           Sample.human Sample.flags Classroom.sampleGuardian "s1" "g1").
  vm_compute. do 2 right. left.
Defined.

Lemma invitation_deleted_only_when_confirmed_witness :
  "i1" = TrimSpace (Classroom.InvitationID Classroom.sampleInvitation)
  /\ "i1" <> EmptyString
  /\ Classroom.confirmDestructive (Classroom.samplePackage false) Sample.human
       Sample.flags ("delete invitation " +:+ "i1") = Ok tt
  /\ exists account rest,
       Classroom.log (Classroom.InvitationsDelete_Run
                        (Classroom.samplePackage false) Sample.human
                        Classroom.sampleInvitation Sample.flags)
       = Classroom.EvConfirm ("delete invitation " +:+ "i1")
         :: Classroom.EvNewService account
         :: Classroom.EvInvitationsDelete "i1" :: rest.
Proof.
  apply (invitation_deleted_only_when_confirmed (Classroom.samplePackage false)
           Sample.human Sample.flags Classroom.sampleInvitation "i1").
  vm_compute. do 2 right. left.
Defined.


(** ** The message of the forward command, byte for byte *)

Section ForwardMessage.
Import Multipart.
Context (pkg : Package) (ctx : Context) (rnd : string)
        (c : GmailMessagesForwardCmd) (flags : RootFlags).

(** X19.  The forward command with attachments sends exactly one message:
    the To line, the Subject line and the Content-Type line, which names
    multipart/mixed and the writer's boundary in quotes, each ended by
    CRLF, then an empty line (CRLF), then the multipart body of the text
    part and the embedded attachments.  What is sent is the URL-safe base64
    text of exactly these bytes: it decodes back to them and uses only
    letters, digits, [-], [_] and [=]. *)
Theorem forward_message_is_crlf_and_web64 account svc original :
  reachesComposer pkg flags c account svc original ->
  let b := randomBoundary rnd in
  let raw :=
    "To: " +:+ TrimSpace (To c) +:+ CRLF
    +:+ "Subject: "
    +:+ composedSubject (Subject c) (headerValue (Payload original) "Subject")
    +:+ CRLF
    +:+ "Content-Type: multipart/mixed; boundary=" +:+ QUOTE +:+ b +:+ QUOTE
    +:+ CRLF
    +:+ CRLF
    +:+ multipartBody b (textPart (preamble (Payload original)))
          (embeddedParts pkg svc (TrimSpace (MessageID c))
             (collectAttachments pkg (Payload original))) in
  sentMessages (log (Forward.Run pkg ctx rnd c flags))
  = [sendRequest (Base64.URLEncodeToString raw)]
  /\ Base64.URLDecodeString (Base64.URLEncodeToString raw) = Some raw
  /\ Base64.string_forall Base64.url_safe_char (Base64.URLEncodeToString raw)
     = true.
Proof.
  intros Hreach b raw.
  split; [| split].
  - rewrite (Forward_sends _ _ _ _ _ _ _ _ Hreach).
    unfold composedMessage, headerBlock, multipartType, encodeWeb64.
    subst raw b. rewrite !append_assoc. reflexivity.
  - apply encodeWeb64_decodes.
  - apply URLEncode_url_safe.
Qed.

End ForwardMessage.

(** ** The earlier revision of the forward command *)

Section ForwardPlainMore.
Context (pkg : Package) (ctx : Context)
        (c : GmailMessagesForwardCmd) (flags : RootFlags).

(** X15.  The earlier revision sends one flat message: the To and Subject
    lines and the line "Content-Type: text/plain; charset=utf-8", each
    ended by a bare LF, an empty line, and the forward text; it fetches
    no attachment and prints no warning. *)
Theorem forward_plain_sends_flat_text account svc original :
  reachesComposer pkg flags c account svc original ->
  sentMessages (log (ForwardPlain.Run pkg ctx c flags))
  = [sendRequest
       (encodeWeb64
          ("To: " +:+ TrimSpace (To c) +:+ NL
           +:+ "Subject: "
           +:+ composedSubject (Subject c) (headerValue (Payload original) "Subject")
           +:+ NL
           +:+ "Content-Type: text/plain; charset=utf-8" +:+ NL
           +:+ NL
           +:+ preamble (Payload original)))]
  /\ fetchedAttachments (log (ForwardPlain.Run pkg ctx c flags)) = []
  /\ warnings (log (ForwardPlain.Run pkg ctx c flags)) = [].
Proof.
  intros Hreach.
  split; [apply (ForwardPlain_sends _ _ _ _ _ _ _ Hreach) |].
  destruct Hreach as (Hacc & Hid & Hto & Hsvc & Hget).
  unfold ForwardPlain.Run.
  rewrite Hacc. cbn [lift bind].
  rewrite (eqb_empty_false _ Hid), (eqb_empty_false _ Hto).
  rewrite Hsvc. cbn [call bind].
  rewrite Hget. cbn [wrapErr bind].
  destruct (Users_Messages_Send svc "me" _) as [sent | e];
    cbn [wrapErr call bind app log fst]; [| split; reflexivity].
  destruct (IsJSON ctx); split; reflexivity.
Qed.

End ForwardPlainMore.

(** ** The further properties on the sample environments *)

Lemma modify_requires_ids_witness :
  log (Modify.Run (Sample.package [] []) Sample.json Faults.noIDs Sample.flags) = []
  /\ outcome (Modify.Run (Sample.package [] []) Sample.json Faults.noIDs Sample.flags)
     = match requireAccount (Sample.package [] []) Sample.flags with
       | Err e => Err e
       | Ok _ => Err (usage "must specify --ids")
       end.
Proof.
  apply (modify_requires_ids (Sample.package [] []) Sample.json Faults.noIDs
           Sample.flags).
  reflexivity.
Defined.

Lemma modify_requires_an_action_witness :
  log (Modify.Run (Sample.package [] []) Sample.json Faults.noAction Sample.flags)
  = []
  /\ outcome (Modify.Run (Sample.package [] []) Sample.json Faults.noAction
               Sample.flags)
     = match requireAccount (Sample.package [] []) Sample.flags with
       | Err e => Err e
       | Ok _ =>
           Err (usage "must specify --add-label, --remove-label, and/or --archive")
       end.
Proof.
  apply (modify_requires_an_action (Sample.package [] []) Sample.json
           Faults.noAction Sample.flags).
  - vm_compute. congruence.
  - reflexivity.
  - reflexivity.
  - reflexivity.
Defined.

Lemma modify_needs_label_table_witness :
  let pkg := Faults.package (Sample.service []) false in
  let run := Modify.Run pkg Sample.json Sample.archiveInbox Sample.flags in
  outcome run = Err (failure "labels: 500")
  /\ batchModifies (log run) = []
  /\ log run = [EvNewService "a@b.com"; EvLabelsList].
Proof.
  apply (modify_needs_label_table (Faults.package (Sample.service []) false)
           Sample.json Sample.archiveInbox Sample.flags "a@b.com"
           (Sample.service []) (failure "labels: 500")).
  - reflexivity.
  - vm_compute. congruence.
  - left. vm_compute. congruence.
  - reflexivity.
  - reflexivity.
Defined.

Lemma modify_failure_reports_nothing_witness :
  let pkg := Faults.package Faults.rejecting true in
  let run := Modify.Run pkg Sample.json Sample.archiveInbox Sample.flags in
  outcome run = Err (failure "403 forbidden")
  /\ jsonResults (log run) = []
  /\ outLines (log run) = []
  /\ length (batchModifies (log run)) = 1%nat.
Proof.
  apply (modify_failure_reports_nothing (Faults.package Faults.rejecting true)
           Sample.json Sample.archiveInbox Sample.flags "a@b.com"
           Faults.rejecting Sample.labels (failure "403 forbidden")).
  - split; [reflexivity |]. split; [vm_compute; congruence |].
    split; [left; vm_compute; congruence |]. split; reflexivity.
  - reflexivity.
Defined.


Lemma forward_needs_the_original_witness :
  let pkg := Sample.package [Sample.report] [] in
  let c := Faults.forwardUnknown in
  let run := Forward.Run pkg Sample.json Sample.rnd c Sample.flags in
  log run = [EvNewService "a@b.com"; EvMessagesGet "me" (TrimSpace (MessageID c)) "full"]
  /\ (exists err,
        outcome run = Err err
        /\ Error err = "fetching message: " +:+ Error (failure "404 not found"))
  /\ fetchedAttachments (log run) = []
  /\ sentMessages (log run) = [].
Proof.
  apply (forward_needs_the_original (Sample.package [Sample.report] []) Sample.json
           Sample.rnd Faults.forwardUnknown Sample.flags "a@b.com"
           (Sample.service []) (failure "404 not found")).
  - reflexivity.
  - vm_compute. congruence.
  - vm_compute. congruence.
  - reflexivity.
  - reflexivity.
Defined.

Lemma forward_send_failure_reports_nothing_witness :
  let pkg := Faults.package Faults.rejecting true in
  let run := Forward.Run pkg Sample.json Sample.rnd Sample.forward Sample.flags in
  (exists err,
     outcome run = Err err
     /\ Error err = "sending forwarded message: "
                    +:+ Error (failure "500 backend error"))
  /\ jsonResults (log run) = []
  /\ outLines (log run) = []
  /\ length (sentMessages (log run)) = 1%nat
  /\ warnings (log run)
     = failedWarnings pkg Faults.rejecting (TrimSpace (MessageID Sample.forward))
         (collectAttachments pkg (Payload Sample.original)).
Proof.
  apply (forward_send_failure_reports_nothing (Faults.package Faults.rejecting true)
           Sample.json Sample.rnd Sample.forward Sample.flags "a@b.com"
           Faults.rejecting Sample.original (failure "500 backend error")).
  - repeat split; vm_compute; congruence.
  - reflexivity.
Defined.

Lemma forward_count_is_embedded_plus_warnings_witness :
  let pkg := Sample.package [Sample.report; Sample.photo] ["att-2"] in
  let svc := Sample.service ["att-2"] in
  let c := Sample.forward in
  let run := Forward.Run pkg Sample.json Sample.rnd c Sample.flags in
  exists count,
    last (log run)
    = Some (forwardReport Sample.json (TrimSpace (MessageID c)) (TrimSpace (To c))
              (composedSubject (Subject c)
                 (headerValue (Payload Sample.original) "Subject"))
              count Sample.sentAnswer)
    /\ count
       = (length (embedded pkg svc (TrimSpace (MessageID c))
                    (collectAttachments pkg (Payload Sample.original)))
          + length (warnings (log run)))%nat.
Proof.
  apply (forward_count_is_embedded_plus_warnings
           (Sample.package [Sample.report; Sample.photo] ["att-2"]) Sample.json
           Sample.rnd Sample.forward Sample.flags "a@b.com"
           (Sample.service ["att-2"]) Sample.original Sample.sentAnswer).
  - repeat split; vm_compute; congruence.
  - reflexivity.
Defined.

Lemma embedded_parts_follow_the_collector_witness :
  let pkg := Sample.package [Sample.report; Sample.photo] ["att-1"] in
  let svc := Sample.service ["att-1"] in
  let c := Sample.forward in
  exists kept : list (attachmentInfo * string),
    sentMessages (log (Forward.Run pkg Sample.human Sample.rnd c Sample.flags))
    = [sendRequest
         (encodeWeb64
            (headerBlock (TrimSpace (To c))
               (composedSubject (Subject c)
                  (headerValue (Payload Sample.original) "Subject"))
               (multipartType (Multipart.randomBoundary Sample.rnd))
             +:+ CRLF
             +:+ multipartBody (Multipart.randomBoundary Sample.rnd)
                   (textPart (preamble (Payload Sample.original)))
                   (map (fun ad => attachmentPart (fst ad) (snd ad)) kept)))]
    /\ map fst kept `sublist_of` collectAttachments pkg (Payload Sample.original)
    /\ (forall att data,
          (att, data) ∈ kept ->
          fetchAttachment pkg svc (TrimSpace (MessageID c)) att = Ok data).
Proof.
  apply (embedded_parts_follow_the_collector
           (Sample.package [Sample.report; Sample.photo] ["att-1"]) Sample.human
           Sample.rnd Sample.forward Sample.flags "a@b.com"
           (Sample.service ["att-1"]) Sample.original).
  repeat split; vm_compute; congruence.
Defined.

Lemma attachment_part_is_written_witness :
  let pkg := Sample.package [Sample.report] [] in
  let svc := Sample.service [] in
  let writer := Multipart.NewWriter Sample.rnd in
  let att := Sample.report in
  exists writer' body,
    Forward.addAttachmentToMultipart pkg svc writer "m1" att
    = ([EvAttachmentsGet "me" "m1" (AttachmentID att)], Ok writer')
    /\ Multipart.boundary writer' = Multipart.boundary writer
    /\ Multipart.buf writer'
       = Multipart.buf writer
         +:+ (if Multipart.lastpart writer then CRLF else EmptyString)
         +:+ "--" +:+ Multipart.boundary writer +:+ CRLF
         +:+ "Content-Disposition: attachment; filename=" +:+ QUOTE
         +:+ Filename att +:+ QUOTE +:+ CRLF
         +:+ "Content-Transfer-Encoding: base64" +:+ CRLF
         +:+ "Content-Type: " +:+ MimeType att +:+ CRLF
         +:+ CRLF
         +:+ body
    /\ Base64.Decode Base64.encodeStd body = Some "content of att-1".
Proof.
  apply (attachment_part_is_written (Sample.package [Sample.report] [])
           (Sample.service []) (Multipart.NewWriter Sample.rnd) "m1" Sample.report
           {| Data := encodeWeb64 "content of att-1" |} "content of att-1").
  - reflexivity.
  - vm_compute. reflexivity.
Defined.

Lemma forward_plain_sends_flat_text_witness :
  let pkg := Sample.package [Sample.report] [] in
  let c := Sample.forwardCustom in
  let run := ForwardPlain.Run pkg Sample.json c Sample.flags in
  sentMessages (log run)
  = [sendRequest
       (encodeWeb64
          ("To: " +:+ TrimSpace (To c) +:+ NL
           +:+ "Subject: "
           +:+ composedSubject (Subject c)
                 (headerValue (Payload Sample.original) "Subject")
           +:+ NL
           +:+ "Content-Type: text/plain; charset=utf-8" +:+ NL
           +:+ NL
           +:+ preamble (Payload Sample.original)))]
  /\ fetchedAttachments (log run) = []
  /\ warnings (log run) = [].
Proof.
  apply (forward_plain_sends_flat_text (Sample.package [Sample.report] [])
           Sample.json Sample.forwardCustom Sample.flags "a@b.com"
           (Sample.service []) Sample.original).
  repeat split; vm_compute; congruence.
Defined.

Lemma forward_message_is_crlf_and_web64_witness :
  let pkg := Sample.package [Sample.report] [] in
  let svc := Sample.service [] in
  let b := Multipart.randomBoundary Sample.rnd in
  let raw :=
    "To: " +:+ TrimSpace (To Sample.forward) +:+ CRLF
    +:+ "Subject: "
    +:+ composedSubject (Subject Sample.forward)
          (headerValue (Payload Sample.original) "Subject")
    +:+ CRLF
    +:+ "Content-Type: multipart/mixed; boundary=" +:+ QUOTE +:+ b +:+ QUOTE
    +:+ CRLF
    +:+ CRLF
    +:+ multipartBody b (textPart (preamble (Payload Sample.original)))
          (embeddedParts pkg svc (TrimSpace (MessageID Sample.forward))
             (collectAttachments pkg (Payload Sample.original))) in
  sentMessages
    (log (Forward.Run pkg Sample.json Sample.rnd Sample.forward Sample.flags))
  = [sendRequest (Base64.URLEncodeToString raw)]
  /\ Base64.URLDecodeString (Base64.URLEncodeToString raw) = Some raw
  /\ Base64.string_forall Base64.url_safe_char (Base64.URLEncodeToString raw)
     = true.
Proof.
  apply (forward_message_is_crlf_and_web64
           (Sample.package [Sample.report] []) Sample.json Sample.rnd
           Sample.forward Sample.flags "a@b.com" (Sample.service [])
           Sample.original).
  repeat split; vm_compute; congruence.
Defined.
